(** * Hazelnut: the credential store of [auth.py]

    A shallow embedding of [src/auth.py] (password policy, salted PBKDF2
    hashing, the SQLite [users] table and the operations on it) and of the
    account functions of [src/login_ui.py] that call it, together with the
    properties of the specification that concern them (C1 to C10) and
    further properties read off the code (X1 to X12).

    Conventions of the embedding.

    - A Python [str] is a Rocq [string] whose characters are the code
      points 0..255; the character classes used by [str.strip] and by the
      regular expressions of the policy are the ones Python's Unicode
      database assigns to these code points.
    - [bytes] values (salts, digests) are lists of [byte].
    - The SQLite file is the [db] field of the [world]: either no [users]
      table yet, or the rows of the table in rowid order together with the
      AUTOINCREMENT counter.  Each operation of [auth.py] opens a
      connection, runs one statement and commits, so a statement is a
      function on that field.  Disk failures are outside the model.
    - [secrets.token_bytes] and SQLite's [datetime('now')] read the
      [entropy] and [clock] streams of the world.
    - Calls of the two cryptographic primitives ([hashlib.pbkdf2_hmac] and
      [secrets.compare_digest]) are recorded in the [trace] of the world.
    - There is one database, the file that [db_path] names.  [init_db]
      takes the path, since it makes the directory of the file and opens
      the file before anything else; the operations on the database are
      written without it.  Of the file system, only what the path alone
      decides is modelled. *)

From Stdlib Require Import ZArith NArith Bool Lia.
From Stdlib Require Import Strings.Byte Ascii String.
From Stdlib Require Import List Permutation Sorted.
Import ListNotations.

Definition bytes := list byte.

(* ================================================================== *)
(** * Library functions used by [auth.py] *)

(** ** [hashlib.pbkdf2_hmac("sha256", ...)]

    SHA-256 (FIPS 180-4), HMAC (RFC 2104) and PBKDF2 (RFC 8018) with a
    derived key of one block (32 bytes), which is what the call in
    [_hash_password] asks for.  Words are integers below [2^32]. *)
Module Hashlib.
Local Open Scope Z_scope.

Definition Z_of_byte (b : byte) : Z := Z.of_N (Byte.to_N b).

Definition byte_of_Z (z : Z) : byte :=
  match Byte.of_N (Z.to_N (z mod 256)) with
  | Some b => b
  | None => x00
  end.

Definition wrap32 (x : Z) : Z := x mod 4294967296.

Definition rotr (n x : Z) : Z :=
  wrap32 (Z.lor (Z.shiftr x n) (Z.shiftl x (32 - n))).

Definition Ch (x y z : Z) : Z :=
  Z.lxor (Z.land x y) (Z.land (Z.lxor x 4294967295) z).

Definition Maj (x y z : Z) : Z :=
  Z.lxor (Z.lxor (Z.land x y) (Z.land x z)) (Z.land y z).

Definition Sigma0 (x : Z) : Z := Z.lxor (Z.lxor (rotr 2 x) (rotr 13 x)) (rotr 22 x).
Definition Sigma1 (x : Z) : Z := Z.lxor (Z.lxor (rotr 6 x) (rotr 11 x)) (rotr 25 x).
Definition sigma0 (x : Z) : Z := Z.lxor (Z.lxor (rotr 7 x) (rotr 18 x)) (Z.shiftr x 3).
Definition sigma1 (x : Z) : Z := Z.lxor (Z.lxor (rotr 17 x) (rotr 19 x)) (Z.shiftr x 10).

(** The 64 round constants of FIPS 180-4, section 4.2.2, in hexadecimal:
      428a2f98 71374491 b5c0fbcf e9b5dba5 3956c25b 59f111f1 923f82a4 ab1c5ed5
      d807aa98 12835b01 243185be 550c7dc3 72be5d74 80deb1fe 9bdc06a7 c19bf174
      e49b69c1 efbe4786 0fc19dc6 240ca1cc 2de92c6f 4a7484aa 5cb0a9dc 76f988da
      983e5152 a831c66d b00327c8 bf597fc7 c6e00bf3 d5a79147 06ca6351 14292967
      27b70a85 2e1b2138 4d2c6dfc 53380d13 650a7354 766a0abb 81c2c92e 92722c85
      a2bfe8a1 a81a664b c24b8b70 c76c51a3 d192e819 d6990624 f40e3585 106aa070
      19a4c116 1e376c08 2748774c 34b0bcb5 391c0cb3 4ed8aa4a 5b9cca4f 682e6ff3
      748f82ee 78a5636f 84c87814 8cc70208 90befffa a4506ceb bef9a3f7 c67178f2 *)
Definition K256 : list Z :=
  [
    1116352408; 1899447441; 3049323471; 3921009573; 961987163; 1508970993;
    2453635748; 2870763221; 3624381080; 310598401; 607225278; 1426881987;
    1925078388; 2162078206; 2614888103; 3248222580; 3835390401; 4022224774;
    264347078; 604807628; 770255983; 1249150122; 1555081692; 1996064986;
    2554220882; 2821834349; 2952996808; 3210313671; 3336571891; 3584528711;
    113926993; 338241895; 666307205; 773529912; 1294757372; 1396182291;
    1695183700; 1986661051; 2177026350; 2456956037; 2730485921; 2820302411;
    3259730800; 3345764771; 3516065817; 3600352804; 4094571909; 275423344;
    430227734; 506948616; 659060556; 883997877; 958139571; 1322822218;
    1537002063; 1747873779; 1955562222; 2024104815; 2227730452; 2361852424;
    2428436474; 2756734187; 3204031479; 3329325298 ].

(** The initial hash value of FIPS 180-4, section 5.3.3, in hexadecimal:
      6a09e667 bb67ae85 3c6ef372 a54ff53a 510e527f 9b05688c 1f83d9ab 5be0cd19 *)
Definition H256 : list Z :=
  [
    1779033703; 3144134277; 1013904242; 2773480762; 1359893119; 2600822924;
    528734635; 1541459225 ].

(** The message schedule, most recent word first: [n] more words are
    appended to the sixteen of the block. *)
Fixpoint schedule (n : nat) (rev_w : list Z) : list Z :=
  match n with
  | O => rev rev_w
  | S n' =>
      match rev_w with
      | _ :: w2 :: _ :: _ :: _ :: _ :: w7 :: _ :: _ :: _ :: _ :: _ :: _ :: _
          :: w15 :: w16 :: _ =>
          schedule n' (wrap32 (sigma1 w2 + w7 + sigma0 w15 + w16) :: rev_w)
      | _ => rev rev_w
      end
  end.

Fixpoint rounds (ks ws : list Z) (a b c d e f g h : Z) : list Z :=
  match ks, ws with
  | k :: ks', w :: ws' =>
      let t1 := h + Sigma1 e + Ch e f g + k + w in
      let t2 := Sigma0 a + Maj a b c in
      rounds ks' ws' (wrap32 (t1 + t2)) a b c (wrap32 (d + t1)) e f g
  | _, _ => [a; b; c; d; e; f; g; h]
  end.

Fixpoint zip_with {A B C : Type} (f : A -> B -> C) (l : list A) (m : list B)
  : list C :=
  match l, m with
  | a :: l', b :: m' => f a b :: zip_with f l' m'
  | _, _ => []
  end.

Definition compress (st block : list Z) : list Z :=
  match st with
  | [a; b; c; d; e; f; g; h] =>
      zip_with (fun x y => wrap32 (x + y)) st
        (rounds K256 (schedule 48 (rev block)) a b c d e f g h)
  | _ => st
  end.

Fixpoint words_of_bytes (fuel : nat) (l : bytes) : list Z :=
  match fuel, l with
  | S fuel', a :: b :: c :: d :: r =>
      (Z_of_byte a * 16777216 + Z_of_byte b * 65536 + Z_of_byte c * 256
       + Z_of_byte d) :: words_of_bytes fuel' r
  | _, _ => []
  end.

Definition bytes_of_word (x : Z) : bytes :=
  [ byte_of_Z (Z.shiftr x 24); byte_of_Z (Z.shiftr x 16);
    byte_of_Z (Z.shiftr x 8); byte_of_Z x ].

Fixpoint blocks (fuel : nat) (ws : list Z) (st : list Z) : list Z :=
  match fuel with
  | O => st
  | S fuel' =>
      match ws with
      | [] => st
      | _ => blocks fuel' (skipn 16 ws) (compress st (firstn 16 ws))
      end
  end.

Definition be64 (n : Z) : bytes :=
  map (fun i => byte_of_Z (Z.shiftr n (8 * i))) [7; 6; 5; 4; 3; 2; 1; 0].

Definition pad (m : bytes) : bytes :=
  let n := List.length m in
  m ++ [x80] ++ repeat x00 ((119 - n mod 64) mod 64)
    ++ be64 (8 * Z.of_nat n).

Definition sha256 (m : bytes) : bytes :=
  let p := pad m in
  flat_map bytes_of_word
    (blocks (List.length p) (words_of_bytes (List.length p) p) H256).

Definition bxor (a b : byte) : byte :=
  byte_of_Z (Z.lxor (Z_of_byte a) (Z_of_byte b)).

Definition hmac_sha256 (key msg : bytes) : bytes :=
  let k := if Nat.ltb 64 (List.length key) then sha256 key else key in
  let k := k ++ repeat x00 (64 - List.length k) in
  sha256 (map (bxor x5c) k ++ sha256 (map (bxor x36) k ++ msg)).

(** [pbkdf2_hmac("sha256", password, salt, iterations)] with the default
    [dklen]: the first block [T_1 = U_1 xor ... xor U_c]. *)
Definition pbkdf2_hmac_sha256 (password salt : bytes) (iterations : N) : bytes :=
  let u1 := hmac_sha256 password (salt ++ [x00; x00; x00; x01]) in
  fst (N.iter (iterations - 1)
         (fun tu =>
            let u := hmac_sha256 password (snd tu) in
            (zip_with bxor (fst tu) u, u))
         (u1, u1)).

End Hashlib.

(** The key derivation runs 200000 rounds: proofs treat it as a function
    they do not unfold. *)
Global Opaque Hashlib.pbkdf2_hmac_sha256.

(** ** Python strings and objects *)

(** The argument values the functions of [auth.py] distinguish: a [str],
    or something that is not a [str]. *)
Inductive pyobj : Type :=
| PyNone
| PyBool (b : bool)
| PyInt (z : Z)
| PyBytes (b : bytes)
| PyStr (s : string).

Definition code (c : ascii) : N := N_of_ascii c.

Definition in_range (lo hi : N) (c : ascii) : bool :=
  (lo <=? code c)%N && (code c <=? hi)%N.

(** [str.isspace] on one character, which is also what [str.strip()] removes
    and what the regular expression class [\s] matches. *)
Definition isspace (c : ascii) : bool :=
  in_range 9 13 c || in_range 28 32 c || (code c =? 133)%N || (code c =? 160)%N.

(** [str.isalnum] on one character. *)
Definition isalnum (c : ascii) : bool :=
  in_range 48 57 c || in_range 65 90 c || in_range 97 122 c
  || (code c =? 170)%N || in_range 178 179 c || (code c =? 181)%N
  || in_range 185 186 c || in_range 188 190 c
  || in_range 192 214 c || in_range 216 246 c || in_range 248 255 c.

(** The character classes of the policy's regular expressions. *)
Definition re_lower (c : ascii) : bool := in_range 97 122 c.    (* [a-z] *)
Definition re_upper (c : ascii) : bool := in_range 65 90 c.     (* [A-Z] *)
Definition re_digit (c : ascii) : bool := in_range 48 57 c.     (* \d *)
Definition re_word (c : ascii) : bool := isalnum c || (code c =? 95)%N.  (* \w *)
Definition re_special (c : ascii) : bool := negb (re_word c || isspace c). (* [^\w\s] *)

(** [re.search(cls, s)] for a pattern that is one character class, read as
    a truth value: some character of [s] is in the class. *)
Fixpoint re_search (cls : ascii -> bool) (s : string) : bool :=
  match s with
  | EmptyString => false
  | String c s' => cls c || re_search cls s'
  end.

Fixpoint lstrip (s : string) : string :=
  match s with
  | EmptyString => EmptyString
  | String c s' => if isspace c then lstrip s' else s
  end.

Fixpoint rstrip (s : string) : string :=
  match s with
  | EmptyString => EmptyString
  | String c s' =>
      match rstrip s' with
      | EmptyString => if isspace c then EmptyString else String c EmptyString
      | r => String c r
      end
  end.

(** [s.strip()] *)
Definition strip (s : string) : string := rstrip (lstrip s).

(** [not s] for a [str]. *)
Definition str_not (s : string) : bool := (s =? "")%string.

(** [s or t] for two [str]. *)
Definition str_or (s t : string) : string := if str_not s then t else s.

(** ** [os.path], as [posixpath] has it *)

Definition is_sep (c : ascii) : bool := (code c =? 47)%N.      (* "/" *)
Definition is_nul (c : ascii) : bool := (code c =? 0)%N.

(** ["/" in s] *)
Definition has_sep (s : string) : bool := re_search is_sep s.

(** [p[:i]] and [p[i:]] for [i = p.rfind("/") + 1]: [p] up to its last
    slash, and what follows it; without a slash [i] is 0. *)
Fixpoint upto_last_sep (p : string) : string :=
  match p with
  | EmptyString => EmptyString
  | String c q =>
      if has_sep q then String c (upto_last_sep q)
      else if is_sep c then String c EmptyString
      else EmptyString
  end.

Fixpoint after_last_sep (p : string) : string :=
  match p with
  | EmptyString => EmptyString
  | String c q =>
      if has_sep q then after_last_sep q
      else if is_sep c then q
      else p
  end.

(** [s.rstrip("/")] *)
Fixpoint rstrip_sep (s : string) : string :=
  match s with
  | EmptyString => EmptyString
  | String c s' =>
      match rstrip_sep s' with
      | EmptyString => if is_sep c then EmptyString else String c EmptyString
      | r => String c r
      end
  end.

(** [s == "/" * len(s)] *)
Fixpoint all_sep (s : string) : bool :=
  match s with
  | EmptyString => true
  | String c s' => is_sep c && all_sep s'
  end.

(** [os.path.dirname(p)]: the head loses its trailing slashes unless it is
    made of slashes only. *)
Definition dirname (p : string) : string :=
  let head := upto_last_sep p in
  if negb (str_not head) && negb (all_sep head) then rstrip_sep head
  else head.

(** [s.encode("utf-8")]: one byte below 128, two bytes for 128..255. *)
Definition encode_utf8 (s : string) : bytes :=
  flat_map
    (fun c =>
       if (code c <? 128)%N then [byte_of_ascii c]
       else [ Hashlib.byte_of_Z (192 + Z.of_N (code c) / 64);
              Hashlib.byte_of_Z (128 + Z.of_N (code c) mod 64) ])
    (list_ascii_of_string s).

(** ** [secrets.compare_digest]

    The loop of CPython's [_tscmp]: every position of [b] is visited and the
    differences are accumulated with [or]; when the lengths differ [b] is
    compared with itself and the accumulator starts at 1. *)
Definition tscmp (a b : bytes) : bool :=
  let same := Nat.eqb (List.length a) (List.length b) in
  let left := if same then a else b in
  let start := if same then 0%Z else 1%Z in
  Z.eqb
    (fold_left Z.lor
       (Hashlib.zip_with
          (fun x y => Z.lxor (Hashlib.Z_of_byte x) (Hashlib.Z_of_byte y)) left b)
       start)
    0.

(* ================================================================== *)
(** * The world: database file, entropy, clock and trace *)

(** One row of [users], columns as in the [CREATE TABLE] of [init_db]. *)
Record row : Type := mkRow {
  col_id : Z;
  col_username : string;
  col_salt : bytes;
  col_pw_hash : bytes;
  col_is_admin : Z;
  col_created_at : string
}.

(** The table: its rows in rowid order and the AUTOINCREMENT counter kept
    in [sqlite_sequence]. *)
Record table : Type := mkTable {
  rows : list row;
  seq : Z
}.

Inductive event : Type :=
| EvPbkdf2 (iterations : N)           (* one call of hashlib.pbkdf2_hmac *)
| EvCompareDigest (scanned : nat).    (* one call of secrets.compare_digest *)

Record world : Type := mkWorld {
  db : option table;          (* [None]: the file has no [users] table *)
  entropy : nat -> byte;      (* what the operating system's generator yields next *)
  clock : nat -> string;      (* successive readings of [datetime('now')] *)
  trace : list event
}.

Inductive exn : Type :=
| ValueError (msg : string)
| FileNotFoundError (msg : string)    (* an OSError with errno ENOENT *)
| IntegrityError (msg : string)       (* sqlite3.IntegrityError *)
| OperationalError (msg : string).    (* sqlite3.OperationalError *)

Inductive outcome (A : Type) : Type :=
| Return (a : A)
| Raise (e : exn).
Arguments Return {A} a.
Arguments Raise {A} e.

(** A Python computation: it returns or raises, and leaves a world. *)
Definition M (A : Type) : Type := world -> outcome A * world.

Definition ret {A : Type} (a : A) : M A := fun w => (Return a, w).
Definition raise {A : Type} (e : exn) : M A := fun w => (Raise e, w).

Definition bind {A B : Type} (m : M A) (k : A -> M B) : M B :=
  fun w =>
    match m w with
    | (Return a, w') => k a w'
    | (Raise e, w') => (Raise e, w')
    end.

Notation "x <- m ;; k" := (bind m (fun x => k))
  (at level 61, m at next level, right associativity).
Notation "m ;; k" := (bind m (fun _ => k))
  (at level 61, right associativity).

(** [try: m  except ValueError: ...]: [None] when the handler is entered. *)
Definition try_ValueError {A : Type} (m : M A) : M (option A) :=
  fun w =>
    match m w with
    | (Return a, w') => (Return (Some a), w')
    | (Raise (ValueError _), w') => (Return None, w')
    | (Raise e, w') => (Raise e, w')
    end.

(** [for x in l: body x] *)
Fixpoint for_each {A : Type} (l : list A) (body : A -> M unit) : M unit :=
  match l with
  | [] => ret tt
  | x :: l' => body x ;; for_each l' body
  end.

Definition with_db (w : world) (d : option table) : world :=
  mkWorld d (entropy w) (clock w) (trace w).

Definition log (e : event) : M unit :=
  fun w => (Return tt, mkWorld (db w) (entropy w) (clock w) (trace w ++ [e])).

(** [secrets.token_bytes(n)] *)
Definition token_bytes (n : nat) : M bytes :=
  fun w =>
    (Return (map (entropy w) (List.seq 0 n)),
     mkWorld (db w) (fun i => entropy w (n + i)) (clock w) (trace w)).

Definition pbkdf2_hmac (password salt : bytes) (iterations : N) : M bytes :=
  log (EvPbkdf2 iterations) ;;
  ret (Hashlib.pbkdf2_hmac_sha256 password salt iterations).

Definition compare_digest (a b : bytes) : M bool :=
  log (EvCompareDigest (List.length b)) ;;
  ret (tscmp a b).

(* ================================================================== *)
(** * The directory and the file of the database

    The world holds one database, the file that [db_path] names; the file
    system around it is not part of the world.  What depends on the
    argument alone is modelled: a name without a directory part, a name
    with a NUL character, a name that can only be a directory.  What the
    file system may refuse besides (a missing permission, a file where a
    directory is wanted, a name beyond its limits) is left out, as the
    input and output errors of the engine are; [db_path] is taken as the
    name of a file, which is what [sqlite3.connect] asks of the engine
    with its default [uri=False]. *)

Definition no_such_directory : exn :=
  FileNotFoundError "[Errno 2] No such file or directory: ''".

Definition embedded_null : exn := ValueError "embedded null byte".

Definition unable_to_open : exn :=
  OperationalError "unable to open database file".

(** [os.makedirs(name, exist_ok=True)]: the empty name is not a directory
    and none can be made under it ([mkdir] fails with [ENOENT], which
    [exist_ok] does not cover); a name with a NUL character is refused
    before the system is asked; any other directory is there afterwards,
    made now or before. *)
Definition makedirs (name : string) : M unit :=
  if str_not name then raise no_such_directory
  else if re_search is_nul name then raise embedded_null
  else ret tt.

(** The last component of a path is a directory whatever the file system
    holds when it is empty (the path ends in a slash), ["."] or [".."]. *)
Definition is_directory_name (name : string) : bool :=
  (name =? "")%string || (name =? ".")%string || (name =? "..")%string.

(** [sqlite3.connect(db_path)] for a [db_path] with a directory part, as
    [init_db] reaches it (without one, the empty name and [":memory:"] open
    a private database): a NUL character is refused when the name is
    converted, and the engine cannot open a directory.  Otherwise the
    connection is to the database of the world. *)
Definition _connect (db_path : string) : M unit :=
  if re_search is_nul db_path then raise embedded_null
  else if is_directory_name (after_last_sep db_path) then raise unable_to_open
  else ret tt.

(* ================================================================== *)
(** * The SQL statements of [auth.py] *)

Definition no_such_table : exn := OperationalError "no such table: users".

Definition unique_failed : exn :=
  IntegrityError "UNIQUE constraint failed: users.username".

(** [WHERE username = ?] *)
Definition username_is (u : string) (r : row) : bool :=
  (col_username r =? u)%string.

(** A [SELECT]: it reads the table. *)
Definition query {A : Type} (q : table -> A) : M A :=
  fun w =>
    match db w with
    | None => (Raise no_such_table, w)
    | Some t => (Return (q t), w)
    end.

(** A [DELETE] or [UPDATE] followed by [commit]: the new table and the
    statement's [rowcount]. *)
Definition execute (stmt : table -> table * nat) : M nat :=
  fun w =>
    match db w with
    | None => (Raise no_such_table, w)
    | Some t => (Return (snd (stmt t)), with_db w (Some (fst (stmt t))))
    end.

(** [CREATE TABLE IF NOT EXISTS users (...)] *)
Definition create_table_if_not_exists : M unit :=
  fun w =>
    match db w with
    | None => (Return tt, with_db w (Some (mkTable [] 0)))
    | Some _ => (Return tt, w)
    end.

(** [SELECT ... FROM users WHERE username = ?] and [fetchone()] *)
Definition select_by_username (u : string) : M (option row) :=
  query (fun t => find (username_is u) (rows t)).

(** The rowid an AUTOINCREMENT key gives the next row: one more than the
    largest rowid the table has ever held.  The engine keeps rowids in 64
    bits and refuses the [INSERT] ("database or disk is full") once the
    largest has been 2^63 - 1; like its other capacity and input and output
    errors, this is left out, so rowids are unbounded here. *)
Definition next_rowid (t : table) : Z :=
  1 + fold_right Z.max (seq t) (map col_id (rows t)).

(** [INSERT INTO users (username, salt, pw_hash, is_admin, created_at)
     VALUES (?, ?, ?, ?, datetime('now'))]: the clock is read, and the row is
    refused when the [UNIQUE] constraint on [username] would break. *)
Definition insert_user (u : string) (salt pw_hash : bytes) (adm : Z) : M unit :=
  fun w =>
    match db w with
    | None => (Raise no_such_table, w)
    | Some t =>
        let now := clock w 0 in
        let later := fun i => clock w (S i) in
        if existsb (username_is u) (rows t)
        then (Raise unique_failed, mkWorld (Some t) (entropy w) later (trace w))
        else
          let i := next_rowid t in
          (Return tt,
           mkWorld (Some (mkTable (rows t ++ [mkRow i u salt pw_hash adm now]) i))
             (entropy w) later (trace w))
    end.

(** [DELETE FROM users WHERE username = ?] *)
Definition delete_by_username (u : string) : M nat :=
  execute (fun t =>
    (mkTable (filter (fun r => negb (username_is u r)) (rows t)) (seq t),
     List.length (filter (username_is u) (rows t)))).

Definition set_credentials (salt pw_hash : bytes) (r : row) : row :=
  mkRow (col_id r) (col_username r) salt pw_hash (col_is_admin r)
    (col_created_at r).

(** [UPDATE users SET salt = ?, pw_hash = ? WHERE username = ?] *)
Definition update_credentials (salt pw_hash : bytes) (u : string) : M nat :=
  execute (fun t =>
    (mkTable
       (map (fun r => if username_is u r then set_credentials salt pw_hash r else r)
          (rows t))
       (seq t),
     List.length (filter (username_is u) (rows t)))).

(** [ORDER BY is_admin DESC, username ASC]: [r1] may come before [r2].
    Text compares byte-wise, which on these strings is the order of the
    character codes. *)
Definition order_leb (r1 r2 : row) : bool :=
  (col_is_admin r2 <? col_is_admin r1)%Z
  || ((col_is_admin r1 =? col_is_admin r2)%Z
      && String.leb (col_username r1) (col_username r2)).

Fixpoint order_insert (r : row) (l : list row) : list row :=
  match l with
  | [] => [r]
  | y :: l' => if order_leb r y then r :: l else y :: order_insert r l'
  end.

Definition order_by (l : list row) : list row := fold_right order_insert [] l.

(** [SELECT username, is_admin FROM users ORDER BY is_admin DESC,
     username ASC] and [fetchall()] *)
Definition select_ordered : M (list row) :=
  query (fun t => order_by (rows t)).

(* ================================================================== *)
(** * [auth.py] *)

(** [@dataclass(frozen=True) class User] *)
Record User : Type := mkUser {
  id : Z;
  username : string;
  is_admin : bool
}.

Definition default_iterations : N := 200000.

(** [bool(x)] for an integer column. *)
Definition bool_of_int (x : Z) : bool := negb (x =? 0)%Z.

Definition User_of_row (r : row) : User :=
  mkUser (col_id r) (col_username r) (bool_of_int (col_is_admin r)).

Definition _hash_password (password : pyobj) (salt : bytes) (iterations : N)
  : M bytes :=
  match password with
  | PyStr s =>
      if (s =? "")%string
      then raise (ValueError "Password must be a non-empty string.")
      else pbkdf2_hmac (encode_utf8 s) salt iterations
  | _ => raise (ValueError "Password must be a non-empty string.")
  end.

Definition validate_password_rules (password : pyobj) : bool * string :=
  match password with
  | PyStr s =>
      if (String.length s <? 8)%nat then
        (false, "Password must be at least 8 characters.")
      else if negb (re_search re_lower s) then
        (false, "Password must contain at least one lowercase letter.")
      else if negb (re_search re_upper s) then
        (false, "Password must contain at least one uppercase letter.")
      else if negb (re_search re_digit s) then
        (false, "Password must contain at least one digit.")
      else if negb (re_search re_special s) then
        (false, "Password must contain at least one special character (e.g., !@#$%).")
      else (true, "OK")
  | _ => (false, "Password must be text.")
  end%string.

Definition create_user (username : string) (password : pyobj)
    (is_admin enforce_rules : bool) : M unit :=
  let username := strip (str_or username "") in
  if str_not username then raise (ValueError "Username cannot be empty.")
  else
    (if enforce_rules then
       let (ok, msg) := validate_password_rules password in
       if negb ok then raise (ValueError msg) else ret tt
     else ret tt) ;;
    salt <- token_bytes 16 ;;
    pw_hash <- _hash_password password salt default_iterations ;;
    insert_user username salt pw_hash (if is_admin then 1 else 0)%Z.

Definition delete_user (username : string) : M bool :=
  let username := strip (str_or username "") in
  if str_not username then ret false
  else
    rowcount <- delete_by_username username ;;
    ret (0 <? rowcount)%nat.

Definition list_users : M (list (string * bool)) :=
  rows <- select_ordered ;;
  ret (map (fun r => (col_username r, bool_of_int (col_is_admin r))) rows).

Definition get_user_by_username (username : string) : M (option User) :=
  let username := strip (str_or username "") in
  if str_not username then ret None
  else
    row <- select_by_username username ;;
    match row with
    | None => ret None
    | Some r => ret (Some (User_of_row r))
    end.

Definition authenticate (username : string) (password : pyobj)
  : M (option User) :=
  let username := strip (str_or username "") in
  if str_not username then ret None
  else
    row <- select_by_username username ;;
    match row with
    | None => ret None
    | Some r =>
        let salt := col_salt r in
        let expected := col_pw_hash r in
        hashed <- try_ValueError (_hash_password password salt default_iterations) ;;
        match hashed with
        | None => ret None
        | Some candidate =>
            same <- compare_digest candidate expected ;;
            if same then ret (Some (User_of_row r)) else ret None
        end
    end.

Definition set_password (username : string) (new_password : pyobj) : M bool :=
  let username := strip (str_or username "") in
  if str_not username then ret false
  else
    let (ok, msg) := validate_password_rules new_password in
    if negb ok then raise (ValueError msg)
    else
      salt <- token_bytes 16 ;;
      pw_hash <- _hash_password new_password salt default_iterations ;;
      rowcount <- update_credentials salt pw_hash username ;;
      ret (0 <? rowcount)%nat.

Definition seed_users : list (string * string * bool) :=
  [ ("admin", "Admin123!", true);
    ("student1", "Student123!", false);
    ("student2", "Student123!", false);
    ("guest", "Guest123!", false) ]%string.

Definition seed_one (seed : string * string * bool) : M unit :=
  let '(username, password, is_admin) := seed in
  found <- get_user_by_username username ;;
  match found with
  | None => create_user username (PyStr password) is_admin false
  | Some _ => ret tt
  end.

(** [init_db(db_path)]: the directory of [db_path] is made, the file is
    opened, the schema is created when absent and the seed accounts are
    added.  [get_user_by_username] and [create_user] are handed the same
    [db_path], so they work on the database the schema was created in. *)
Definition init_db (db_path : string) : M unit :=
  makedirs (dirname db_path) ;;
  _connect db_path ;;
  create_table_if_not_exists ;;
  for_each seed_users seed_one.

(* ================================================================== *)
(** * [login_ui.py]: the callers of [auth.py]

    The helpers of [ui/common.py] are not part of the sources at hand.  The
    functions below take the answers to their prompts as parameters and
    return the lines they print; [print_header] and [pause] are left
    out. *)

(** [try: m  except Exception as e: handler e] *)
Definition try_Exception {A : Type} (m : M A) (handler : exn -> M A) : M A :=
  fun w =>
    match m w with
    | (Return a, w') => (Return a, w')
    | (Raise e, w') => handler e w'
    end.

(** [str(e)] *)
Definition str_of_exn (e : exn) : string :=
  match e with
  | ValueError msg => msg
  | FileNotFoundError msg => msg
  | IntegrityError msg => msg
  | OperationalError msg => msg
  end.

(** [print(a, b)] prints the two, separated by a space. *)
Definition print2 (a b : string) : string := (a ++ " " ++ b)%string.

(** [change_own_password(user, db_path)], the user answering [new_pw] and
    then [confirm]. *)
Definition change_own_password (user : User) (new_pw confirm : string)
  : M (list string) :=
  let (ok, msg) := validate_password_rules (PyStr new_pw) in
  if negb ok then ret [print2 "Password rejected:" msg]
  else if negb (confirm =? new_pw)%string then ret ["Passwords do not match."%string]
  else
    try_Exception
      (set_password (username user) (PyStr new_pw) ;;
       ret ["Password updated successfully."%string])
      (fun e => ret [print2 "Could not update password:" (str_of_exn e)]).

(** Choice 3 of [admin_menu], "Delete user", the administrator [user]
    answering [uname]. *)
Definition admin_menu_delete (user : User) (uname : string) : M (list string) :=
  if (uname =? username user)%string then
    ret ["You cannot delete your own account while logged in."%string]
  else
    ok <- delete_user uname ;;
    ret [if ok then "Deleted."%string else "No such user."%string].

(** Choice 4 of [admin_menu], "Reset user password", the administrator
    answering [uname] and then [pw]. *)
Definition admin_menu_reset (uname pw : string) : M (list string) :=
  try_Exception
    (ok <- set_password uname (PyStr pw) ;;
     ret [if ok then "Password updated."%string else "No such user."%string])
    (fun e => ret [print2 "Password rejected:" (str_of_exn e)]).

(* ================================================================== *)
(** * Notions used to state the properties *)

(** The row a lookup by (stripped) username finds. *)
Definition find_row (u : string) (t : table) : option row :=
  find (username_is u) (rows t).

(** The rows a statement with [WHERE username = u] touches. *)
Definition rows_of (u : string) (t : table) : list row :=
  filter (username_is u) (rows t).

(** What the schema and [create_user] maintain: usernames are unique
    ([UNIQUE]) and not empty, and [is_admin] holds 0 or 1. *)
Definition wf_row (r : row) : Prop :=
  col_username r <> ""%string
  /\ (col_is_admin r = 0%Z \/ col_is_admin r = 1%Z).

Definition wf_table (t : table) : Prop :=
  NoDup (map col_username (rows t)) /\ Forall wf_row (rows t).

(** The world after a computation, and what it returned or raised. *)
Definition result {A : Type} (m : M A) (w : world) : outcome A := fst (m w).
Definition after {A : Type} (m : M A) (w : world) : world := snd (m w).

(** The salt [secrets.token_bytes(16)] yields in world [w]. *)
Definition next_salt (w : world) : bytes := map (entropy w) (List.seq 0 16).

(** [_hash_password(s, salt)] when it does not raise. *)
Definition digest (s : string) (salt : bytes) : bytes :=
  Hashlib.pbkdf2_hmac_sha256 (encode_utf8 s) salt default_iterations.

(** The hasher rejects what is not a non-empty [str], before any hashing. *)
Definition hashable (p : pyobj) : bool :=
  match p with
  | PyStr s => negb (s =? "")%string
  | _ => false
  end.

(** The world [create_user] leaves when it inserts: sixteen bytes of entropy
    and one clock reading are used, one hashing is traced, and the new row is
    the last of the table. *)
Definition created (w : world) (t : table) (u s : string) (adm : bool) : world :=
  mkWorld
    (Some (mkTable
             (rows t ++ [mkRow (next_rowid t) u (next_salt w)
                           (digest s (next_salt w))
                           (if adm then 1 else 0)%Z (clock w 0)])
             (next_rowid t)))
    (fun i => entropy w (16 + i)) (fun i => clock w (S i))
    (trace w ++ [EvPbkdf2 default_iterations]).

(** [enforce_rules] is off, or the password passes the policy. *)
Definition policy_ok (enforce : bool) (p : pyobj) : Prop :=
  enforce = true -> fst (validate_password_rules p) = true.

(** ** The policy in words *)

Definition chars (s : string) : list ascii := list_ascii_of_string s.

(** Some character of [s] has the property [P]. *)
Definition has (P : ascii -> Prop) (s : string) : Prop :=
  exists c, In c (chars s) /\ P c.

Definition lowercase_letter (c : ascii) : Prop := (97 <= code c <= 122)%N.
Definition uppercase_letter (c : ascii) : Prop := (65 <= code c <= 90)%N.
Definition decimal_digit (c : ascii) : Prop := (48 <= code c <= 57)%N.
Definition alphanumeric (c : ascii) : Prop := isalnum c = true.
Definition whitespace (c : ascii) : Prop := isspace c = true.

(** The fifth rule as the specification words it: neither alphanumeric nor
    whitespace. *)
Definition special_as_specified (c : ascii) : Prop :=
  ~ alphanumeric c /\ ~ whitespace c.

(** The fifth rule as the pattern [[^\w\s]] has it: the underscore is a
    word character too. *)
Definition special_as_matched (c : ascii) : Prop :=
  ~ alphanumeric c /\ c <> "_"%char /\ ~ whitespace c.

Definition meets_policy (special : ascii -> Prop) (s : string) : Prop :=
  8 <= String.length s
  /\ has lowercase_letter s /\ has uppercase_letter s
  /\ has decimal_digit s /\ has special s.

(** ** Example worlds *)

Definition example_entropy (i : nat) : byte := Hashlib.byte_of_Z (Z.of_nat i).
Definition example_clock (i : nat) : string := "2024-01-01 00:00:00"%string.

Definition empty_table : table := mkTable [] 0.

(** A database whose table exists and is empty. *)
Definition fresh_world : world :=
  mkWorld (Some empty_table) example_entropy example_clock [].

(** A file without the table. *)
Definition blank_world : world :=
  mkWorld None example_entropy example_clock [].

(** The world after [create_user("bob", "Valid123!")] in [fresh_world]. *)
Definition world_bob : world :=
  created fresh_world empty_table "bob" "Valid123!" false.

Definition salt_0f : bytes :=
  [x00; x01; x02; x03; x04; x05; x06; x07; x08; x09; x0a; x0b; x0c; x0d; x0e; x0f].

(** Two 32-byte digests, written out. *)
Definition hash_a : bytes :=
  [x8e; x38; xa3; x3c; xd2; xb1; x02; x0d; x01; x3a; x39; xdc; x2b; x90; xcf; xd6;
   xdc; xc5; x35; xdc; xa6; x66; x29; xb4; x0f; x74; x46; xdf; x39; x72; x4d; x24].

Definition hash_b : bytes :=
  [x7a; x71; xe6; xb6; xe0; x44; x22; x2a; x8c; xe5; x96; xed; xa2; x25; x91; x2c;
   x91; xfc; x1e; x2a; x9d; x43; xfa; xe4; x76; x08; x9d; xa6; xf3; xfd; xaa; x73].

Definition row_alice : row :=
  mkRow 1 "alice" salt_0f hash_a 1 "2024-01-01 00:00:00".

Definition row_bob : row :=
  mkRow 2 "bob" salt_0f hash_b 0 "2024-01-01 00:00:00".

Definition table_pair : table := mkTable [row_alice; row_bob] 2.

(** A store with an administrator and a plain account whose salts coincide
    and whose digests differ. *)
Definition world_pair : world :=
  mkWorld (Some table_pair) example_entropy example_clock [].

(** The table after [UPDATE users SET salt, pw_hash WHERE username = u]
    with the salt drawn in [w] and the digest of [s] under it. *)
Definition updated_table (w : world) (t : table) (u s : string) : table :=
  mkTable
    (map (fun r =>
            if username_is u r
            then set_credentials (next_salt w) (digest s (next_salt w)) r
            else r)
       (rows t))
    (seq t).

(** The world [set_password] leaves when it reaches the [UPDATE]. *)
Definition updated (w : world) (t : table) (u s : string) : world :=
  mkWorld (Some (updated_table w t u s))
    (fun i => entropy w (16 + i)) (clock w)
    (trace w ++ [EvPbkdf2 default_iterations]).

(** The table after [DELETE FROM users WHERE username = u]. *)
Definition deleted_table (t : table) (u : string) : table :=
  mkTable (filter (fun r => negb (username_is u r)) (rows t)) (seq t).

(** ** The order of a listing *)

(** What [list_users] returns for a row. *)
Definition listing (r : row) : string * bool :=
  (col_username r, bool_of_int (col_is_admin r)).

(** [x] may stand before [y] in a listing: an administrator before an
    account that is none, and within each group the smaller username first
    (strings compared character by character, by code). *)
Definition listed_before (x y : string * bool) : Prop :=
  (snd x = true /\ snd y = false)
  \/ (snd x = snd y /\ String.leb (fst x) (fst y) = true).

(** ** Seeding *)

Definition seed_name (seed : string * string * bool) : string := fst (fst seed).

Definition seed_listing (seed : string * string * bool) : string * bool :=
  (fst (fst seed), snd seed).

(** A seed [create_user] accepts with the policy off: its username is
    stripped and not empty, its password not empty. *)
Definition good_seed (seed : string * string * bool) : Prop :=
  strip (seed_name seed) = seed_name seed
  /\ seed_name seed <> ""%string
  /\ snd (fst seed) <> ""%string.

(** No row of [t] has the username [u]. *)
Definition absent (t : table) (u : string) : bool :=
  negb (existsb (username_is u) (rows t)).

(** [db_path] names a file in a directory: it has a directory part and no
    NUL character, and its last component is a name other than ["."] and
    [".."]. *)
Definition names_file (db_path : string) : bool :=
  negb (str_not (dirname db_path))
  && negb (re_search is_nul db_path)
  && negb (is_directory_name (after_last_sep db_path)).

(** The engine keeps rowids in 64 bits and refuses an [INSERT] once the
    largest rowid has been 2^63 - 1: [t] has room for [n] more rows when the
    [n] rowids that follow the largest it has held are within that range. *)
Definition has_room (n : nat) (t : table) : Prop :=
  (next_rowid t + Z.of_nat n <= 2 ^ 63)%Z.

(** The table [init_db] starts from: the one of the file, or the empty one
    it creates. *)
Definition table_or_empty (d : option table) : table :=
  match d with
  | Some t => t
  | None => empty_table
  end.

(** The world after the seeding loop: each seed that is absent is created
    in turn. *)
Fixpoint seeded (seeds : list (string * string * bool)) (w : world) : world :=
  match seeds with
  | [] => w
  | seed :: rest =>
      match db w with
      | None => w
      | Some t =>
          match find_row (seed_name seed) t with
          | Some _ => seeded rest w
          | None =>
              seeded rest
                (created w t (seed_name seed) (snd (fst seed)) (snd seed))
          end
      end
  end.

(** ** Further notions *)

(** The world once sixteen bytes of entropy are used and nothing else. *)
Definition drawn (w : world) : world :=
  mkWorld (db w) (fun i => entropy w (16 + i)) (clock w) (trace w).

(** The row [create_user] appends. *)
Definition new_row (w : world) (t : table) (u s : string) (adm : bool) : row :=
  mkRow (next_rowid t) u (next_salt w) (digest s (next_salt w))
    (if adm then 1 else 0)%Z (clock w 0).

(** Primary keys: rowids are distinct and none exceeds the AUTOINCREMENT
    counter. *)
Definition ids_ok (t : table) : Prop :=
  NoDup (map col_id (rows t))
  /\ Forall (fun r => (col_id r <= seq t)%Z) (rows t).

(* ================================================================== *)
(** * The hash functions on known answers *)

(** SHA-256 of "abc" (FIPS 180-4) and of the empty message. *)
Example sha256_abc :
  Hashlib.sha256 (encode_utf8 "abc")
  =     [xba; x78; x16; xbf; x8f; x01; xcf; xea; x41; x41; x40; xde; x5d; xae;
     x22; x23; xb0; x03; x61; xa3; x96; x17; x7a; x9c; xb4; x10; xff; x61;
     xf2; x00; x15; xad].
Proof. vm_compute. reflexivity. Qed.

Example sha256_empty :
  Hashlib.sha256 []
  =     [xe3; xb0; xc4; x42; x98; xfc; x1c; x14; x9a; xfb; xf4; xc8; x99; x6f;
     xb9; x24; x27; xae; x41; xe4; x64; x9b; x93; x4c; xa4; x95; x99; x1b;
     x78; x52; xb8; x55].
Proof. vm_compute. reflexivity. Qed.

(** A message of 120 bytes, which takes three blocks. *)
Example sha256_three_blocks :
  Hashlib.sha256 (repeat x61 120)
  =     [x2f; x3d; x33; x54; x32; xc7; x0b; x58; x0a; xf0; xe8; xe1; xb3; x67;
     x4a; x7c; x02; x0d; x68; x3a; xa5; xf7; x3a; xaa; xed; xfd; xc5; x5a;
     xf9; x04; xc2; x1c].
Proof. vm_compute. reflexivity. Qed.

Example hmac_sha256_fox :
  Hashlib.hmac_sha256 (encode_utf8 "key")
    (encode_utf8 "The quick brown fox jumps over the lazy dog")
  =     [xf7; xbc; x83; xf4; x30; x53; x84; x24; xb1; x32; x98; xe6; xaa; x6f;
     xb1; x43; xef; x4d; x59; xa1; x49; x46; x17; x59; x97; x47; x9d; xbc;
     x2d; x1a; x3c; xd8].
Proof. vm_compute. reflexivity. Qed.

(** PBKDF2-HMAC-SHA256 of "password" and "salt" with one and two rounds,
    and of a policy-valid password with three. *)
Example pbkdf2_one_round :
  Hashlib.pbkdf2_hmac_sha256 (encode_utf8 "password") (encode_utf8 "salt") 1
  =     [x12; x0f; xb6; xcf; xfc; xf8; xb3; x2c; x43; xe7; x22; x52; x56; xc4;
     xf8; x37; xa8; x65; x48; xc9; x2c; xcc; x35; x48; x08; x05; x98; x7c;
     xb7; x0b; xe1; x7b].
Proof. vm_compute. reflexivity. Qed.

Example pbkdf2_two_rounds :
  Hashlib.pbkdf2_hmac_sha256 (encode_utf8 "password") (encode_utf8 "salt") 2
  =     [xae; x4d; x0c; x95; xaf; x6b; x46; xd3; x2d; x0a; xdf; xf9; x28; xf0;
     x6d; xd0; x2a; x30; x3f; x8e; xf3; xc2; x51; xdf; xd6; xe2; xd8; x5a;
     x95; x47; x4c; x43].
Proof. vm_compute. reflexivity. Qed.

Example pbkdf2_three_rounds :
  Hashlib.pbkdf2_hmac_sha256 (encode_utf8 "Valid123!") salt_0f 3
  =     [x75; x32; x86; xbc; x2a; xba; x82; x8f; xa4; x0d; x94; xcf; x75; x30;
     xa7; x17; xa0; xef; x4f; xae; xaa; x59; x89; xe2; x47; xf5; x79; x6b;
     x35; xd6; x37; x55].
Proof. vm_compute. reflexivity. Qed.

(** [os.path.dirname] on names with and without a directory part. *)
Example dirname_of_names :
  dirname "users.db" = ""%string
  /\ dirname ":memory:" = ""%string
  /\ dirname "data/users.db" = "data"%string
  /\ dirname "./users.db" = "."%string
  /\ dirname "/users.db" = "/"%string
  /\ dirname "//users.db" = "//"%string
  /\ dirname "/srv/app//users.db" = "/srv/app"%string
  /\ dirname "data/" = "data"%string.
Proof. repeat split. Qed.

(** Names of a file in a directory, and names that are not. *)
Example names_file_of_names :
  names_file "data/users.db" = true
  /\ names_file "/srv/app//users.db" = true
  /\ names_file "./users.db" = true
  /\ names_file "users.db" = false
  /\ names_file "data/" = false
  /\ names_file "data/." = false
  /\ names_file "data/.." = false.
Proof. repeat split. Qed.

(* ================================================================== *)
(** * Facts about the library functions *)

Section Builtins.

Lemma Z_of_byte_inj (x y : byte) :
  Hashlib.Z_of_byte x = Hashlib.Z_of_byte y -> x = y.
Proof.
  unfold Hashlib.Z_of_byte. intros H. apply N2Z.inj in H.
  assert (E : Byte.of_N (Byte.to_N x) = Byte.of_N (Byte.to_N y)) by now rewrite H.
  rewrite !Byte.of_to_N in E. congruence.
Qed.

Lemma fold_lor_zero (l : list Z) (acc : Z) :
  fold_left Z.lor l acc = 0%Z <-> acc = 0%Z /\ Forall (fun x => x = 0%Z) l.
Proof.
  revert acc. induction l as [|x l IH]; intros acc; simpl.
  - split; [intros ->; auto | tauto].
  - rewrite IH, Z.lor_eq_0_iff. split.
    + intros [[-> ->] F]. auto.
    + intros [-> F]. inversion F; subst. auto.
Qed.

Lemma xor_all_zero (a b : bytes) :
  List.length a = List.length b ->
  Forall (fun x => x = 0%Z)
    (Hashlib.zip_with
       (fun x y => Z.lxor (Hashlib.Z_of_byte x) (Hashlib.Z_of_byte y)) a b)
  <-> a = b.
Proof.
  revert b. induction a as [|x a IH]; intros [|y b] L; simpl in *; try discriminate.
  - split; auto.
  - injection L as L. split.
    + intros F. inversion F as [|? ? Hx Hr]; subst.
      apply Z.lxor_eq, Z_of_byte_inj in Hx. apply IH in Hr; auto. congruence.
    + intros E. injection E as -> ->. constructor.
      * apply Z.lxor_nilpotent.
      * apply IH; auto.
Qed.

(** The accumulating comparison decides equality of the two byte strings. *)
Lemma tscmp_eq (a b : bytes) : tscmp a b = true <-> a = b.
Proof.
  unfold tscmp. destruct (Nat.eqb (List.length a) (List.length b)) eqn:L.
  - apply Nat.eqb_eq in L. rewrite Z.eqb_eq, fold_lor_zero.
    rewrite xor_all_zero by assumption. tauto.
  - apply Nat.eqb_neq in L. rewrite Z.eqb_eq, fold_lor_zero. split.
    + intros [H _]. discriminate.
    + intros ->. contradiction.
Qed.

Lemma tscmp_refl (a : bytes) : tscmp a a = true.
Proof. now apply tscmp_eq. Qed.

Lemma str_or_empty (s : string) : str_or s "" = s.
Proof.
  unfold str_or, str_not. destruct (String.eqb_spec s ""); congruence.
Qed.

Lemma str_not_false (s : string) : str_not s = false <-> s <> ""%string.
Proof. unfold str_not. apply String.eqb_neq. Qed.

Lemma str_not_true (s : string) : str_not s = true <-> s = ""%string.
Proof. unfold str_not. apply String.eqb_eq. Qed.

End Builtins.

(* ================================================================== *)
(** * Steps of the operations *)

Section Steps.

Variable w : world.
Variable t : table.
Hypothesis Hdb : db w = Some t.

Lemma select_by_username_run (u : string) :
  select_by_username u w = (Return (find_row u t), w).
Proof. unfold select_by_username, query. now rewrite Hdb. Qed.

Lemma insert_user_fresh (u : string) (salt h : bytes) (adm : Z) :
  find_row u t = None ->
  insert_user u salt h adm w =
    (Return tt,
     mkWorld
       (Some (mkTable (rows t ++ [mkRow (next_rowid t) u salt h adm (clock w 0)])
                (next_rowid t)))
       (entropy w) (fun i => clock w (S i)) (trace w)).
Proof.
  intros F. unfold insert_user. rewrite Hdb.
  destruct (existsb (username_is u) (rows t)) eqn:E; [|reflexivity].
  apply existsb_exists in E. destruct E as [r [Hin Hr]].
  apply (find_none _ _ F) in Hin. congruence.
Qed.

Lemma insert_user_taken (u : string) (salt h : bytes) (adm : Z) (r : row) :
  find_row u t = Some r ->
  insert_user u salt h adm w =
    (Raise unique_failed,
     mkWorld (Some t) (entropy w) (fun i => clock w (S i)) (trace w)).
Proof.
  intros F. unfold insert_user. rewrite Hdb.
  apply find_some in F. destruct F as [Hin Hr].
  assert (E : existsb (username_is u) (rows t) = true)
    by (apply existsb_exists; eauto).
  now rewrite E.
Qed.

End Steps.

Lemma hash_password_str (s : string) (salt : bytes) (w : world) :
  s <> ""%string ->
  _hash_password (PyStr s) salt default_iterations w =
    (Return (digest s salt),
     mkWorld (db w) (entropy w) (clock w)
       (trace w ++ [EvPbkdf2 default_iterations])).
Proof.
  intros Hs. unfold _hash_password, digest.
  apply String.eqb_neq in Hs. rewrite Hs.
  unfold pbkdf2_hmac, bind, log, ret. reflexivity.
Qed.

Lemma hash_password_rejects (p : pyobj) (salt : bytes) (w : world) :
  hashable p = false ->
  _hash_password p salt default_iterations w =
    (Raise (ValueError "Password must be a non-empty string."), w).
Proof.
  destruct p as [| | | |s]; simpl; try reflexivity.
  intros H. apply negb_false_iff in H. now rewrite H.
Qed.

Lemma hashable_str (p : pyobj) :
  hashable p = true -> exists s, p = PyStr s /\ s <> ""%string.
Proof.
  destruct p as [| | | |s]; simpl; try discriminate.
  intros H. apply negb_true_iff, String.eqb_neq in H. eauto.
Qed.

Lemma find_row_app_fresh (u : string) (l : list row) (r : row) :
  find (username_is u) l = None ->
  username_is u r = true ->
  find (username_is u) (l ++ [r]) = Some r.
Proof.
  intros F Hr. induction l as [|x l IH]; simpl in *.
  - now rewrite Hr.
  - destruct (username_is u x); [discriminate | auto].
Qed.

Lemma username_is_refl (i : Z) (u : string) (s h : bytes) (a : Z) (c : string) :
  username_is u (mkRow i u s h a c) = true.
Proof. unfold username_is. simpl. apply String.eqb_refl. Qed.

(** A policy-valid password is a non-empty [str]. *)
Lemma valid_password_hashable (p : pyobj) :
  fst (validate_password_rules p) = true -> hashable p = true.
Proof.
  destruct p as [| | | |s]; simpl; try discriminate.
  destruct s; simpl; [discriminate | reflexivity].
Qed.

(* ================================================================== *)
(** * [create_user] and [authenticate] *)

Lemma create_user_inserts (w : world) (t : table) (u s : string)
    (adm enforce : bool) :
  db w = Some t ->
  strip u <> ""%string ->
  s <> ""%string ->
  policy_ok enforce (PyStr s) ->
  find_row (strip u) t = None ->
  create_user u (PyStr s) adm enforce w = (Return tt, created w t (strip u) s adm).
Proof.
  intros Hdb Hu Hs Hp Hf. unfold create_user. rewrite str_or_empty.
  apply str_not_false in Hu. rewrite Hu.
  unfold bind at 1.
  assert (E : (if enforce
               then let (ok, msg) := validate_password_rules (PyStr s) in
                    if negb ok then raise (ValueError msg) else ret tt
               else ret tt) w = (Return tt, w)).
  { destruct enforce; [|reflexivity].
    specialize (Hp eq_refl).
    destruct (validate_password_rules (PyStr s)) as [ok msg]. simpl in Hp.
    subst ok. reflexivity. }
  rewrite E. unfold bind at 1, token_bytes.
  unfold bind at 1. rewrite hash_password_str by assumption.
  erewrite insert_user_fresh by (simpl; eauto). reflexivity.
Qed.

(** What [create_user] did when it returned. *)
Lemma create_user_returned (w w' : world) (u : string) (p : pyobj)
    (adm enforce : bool) :
  create_user u p adm enforce w = (Return tt, w') ->
  exists t s,
    db w = Some t /\ strip u <> ""%string /\ p = PyStr s /\ s <> ""%string
    /\ policy_ok enforce p /\ find_row (strip u) t = None
    /\ w' = created w t (strip u) s adm.
Proof.
  unfold create_user. rewrite str_or_empty.
  destruct (str_not (strip u)) eqn:Hu; [discriminate|].
  apply str_not_false in Hu. unfold bind at 1.
  assert (P : policy_ok enforce p \/
              exists msg, (if enforce
               then let (ok, msg) := validate_password_rules p in
                    if negb ok then raise (ValueError msg) else ret tt
               else ret tt) w = (Raise (ValueError msg), w)).
  { unfold policy_ok. destruct enforce; [|left; discriminate].
    destruct (validate_password_rules p) as [[|] msg]; simpl.
    - left; reflexivity.
    - right. exists msg. reflexivity. }
  destruct P as [P | [msg E]]; [|rewrite E; discriminate].
  assert (E : (if enforce
               then let (ok, msg) := validate_password_rules p in
                    if negb ok then raise (ValueError msg) else ret tt
               else ret tt) w = (Return tt, w)).
  { destruct enforce; [|reflexivity]. specialize (P eq_refl).
    destruct (validate_password_rules p) as [ok msg]. simpl in P.
    subst ok. reflexivity. }
  rewrite E. unfold bind at 1, token_bytes. unfold bind at 1.
  destruct (hashable p) eqn:Hh.
  - apply hashable_str in Hh. destruct Hh as [s [-> Hs]].
    rewrite hash_password_str by assumption.
    destruct (db w) as [t|] eqn:Hdb.
    + destruct (find_row (strip u) t) as [r|] eqn:Hf.
      * erewrite insert_user_taken by (simpl; eauto). discriminate.
      * erewrite insert_user_fresh by (simpl; eauto).
        intros H. injection H as <-. exists t, s. repeat split; auto.
    + unfold insert_user. simpl. discriminate.
  - rewrite hash_password_rejects by assumption. discriminate.
Qed.

Section Authenticate.

Variable w : world.
Variable t : table.
Hypothesis Hdb : db w = Some t.
Variable u : string.

Lemma authenticate_blank (p : pyobj) (w0 : world) :
  strip u = ""%string -> authenticate u p w0 = (Return None, w0).
Proof.
  intros H. unfold authenticate. rewrite str_or_empty.
  apply str_not_true in H. now rewrite H.
Qed.

Lemma authenticate_unknown (p : pyobj) :
  find_row (strip u) t = None -> authenticate u p w = (Return None, w).
Proof.
  intros F. unfold authenticate. rewrite str_or_empty.
  destruct (str_not (strip u)); [reflexivity|].
  unfold bind. rewrite (select_by_username_run _ _ Hdb), F. reflexivity.
Qed.

Lemma authenticate_unhashable (p : pyobj) (r : row) :
  find_row (strip u) t = Some r -> hashable p = false ->
  authenticate u p w = (Return None, w).
Proof.
  intros F Hh. unfold authenticate. rewrite str_or_empty.
  destruct (str_not (strip u)); [reflexivity|].
  unfold bind at 1. rewrite (select_by_username_run _ _ Hdb), F.
  unfold bind, try_ValueError. rewrite hash_password_rejects by assumption.
  reflexivity.
Qed.

(** With a known username and a non-empty [str], the stored salt is used
    for one hashing and the digests are compared once. *)
Lemma authenticate_known (s : string) (r : row) :
  strip u <> ""%string ->
  find_row (strip u) t = Some r -> s <> ""%string ->
  authenticate u (PyStr s) w =
    (Return (if tscmp (digest s (col_salt r)) (col_pw_hash r)
             then Some (User_of_row r) else None),
     mkWorld (db w) (entropy w) (clock w)
       (trace w ++ [EvPbkdf2 default_iterations;
                    EvCompareDigest (List.length (col_pw_hash r))])).
Proof.
  intros Hu F Hs. unfold authenticate. rewrite str_or_empty.
  apply str_not_false in Hu. rewrite Hu.
  unfold bind at 1. rewrite (select_by_username_run _ _ Hdb), F.
  unfold bind at 1, try_ValueError. rewrite hash_password_str by assumption.
  unfold bind, compare_digest, log, ret. simpl. rewrite <- app_assoc. simpl.
  destruct (tscmp _ _); reflexivity.
Qed.

End Authenticate.

(* ================================================================== *)
(** * The password policy *)

Section Policy.

Lemma re_search_has (cls : ascii -> bool) (P : ascii -> Prop) (s : string) :
  (forall c, cls c = true <-> P c) ->
  re_search cls s = true <-> has P s.
Proof.
  intros R. unfold has, chars. induction s as [|c s IH]; simpl.
  - split; [discriminate | intros [c [[] _]]].
  - rewrite orb_true_iff, IH, R. split.
    + intros [H | [d [Hin Hd]]]; eauto.
    + intros [d [[<- | Hin] Hd]]; eauto.
Qed.

Lemma in_range_spec (lo hi : N) (c : ascii) :
  in_range lo hi c = true <-> (lo <= code c <= hi)%N.
Proof.
  unfold in_range. now rewrite andb_true_iff, !N.leb_le.
Qed.

Lemma code_underscore (c : ascii) : (code c =? 95)%N = true <-> c = "_"%char.
Proof.
  rewrite N.eqb_eq. unfold code. split.
  - intros H. rewrite <- (ascii_N_embedding c), H. reflexivity.
  - intros ->. reflexivity.
Qed.

Lemma re_special_spec (c : ascii) :
  re_special c = true <-> special_as_matched c.
Proof.
  unfold re_special, re_word, special_as_matched, alphanumeric, whitespace.
  rewrite negb_true_iff, !orb_false_iff, <- code_underscore.
  destruct (isalnum c), (code c =? 95)%N, (isspace c); intuition congruence.
Qed.

Lemma has_lower (s : string) : re_search re_lower s = true <-> has lowercase_letter s.
Proof. apply re_search_has. intros c. apply in_range_spec. Qed.

Lemma has_upper (s : string) : re_search re_upper s = true <-> has uppercase_letter s.
Proof. apply re_search_has. intros c. apply in_range_spec. Qed.

Lemma has_digit (s : string) : re_search re_digit s = true <-> has decimal_digit s.
Proof. apply re_search_has. intros c. apply in_range_spec. Qed.

Lemma has_special (s : string) :
  re_search re_special s = true <-> has special_as_matched s.
Proof. apply re_search_has. intros c. apply re_special_spec. Qed.

End Policy.

(* ================================================================== *)
(** * Rows and lookups *)

Section Rows.

Lemma username_is_eq (u : string) (r : row) :
  username_is u r = true <-> col_username r = u.
Proof. unfold username_is. apply String.eqb_eq. Qed.

Lemma find_row_username (u : string) (t : table) (r : row) :
  find_row u t = Some r -> In r (rows t) /\ col_username r = u.
Proof.
  intros F. apply find_some in F. now rewrite username_is_eq in F.
Qed.

Lemma find_row_none (u : string) (t : table) :
  find_row u t = None <-> rows_of u t = [].
Proof.
  unfold find_row, rows_of. induction (rows t) as [|x l IH]; simpl.
  - tauto.
  - destruct (username_is u x); [split; discriminate | exact IH].
Qed.

(** Under [UNIQUE], the row a lookup finds is the only one of that name. *)
Lemma rows_of_unique (u : string) (l : list row) (r : row) :
  NoDup (map col_username l) ->
  find (username_is u) l = Some r ->
  filter (username_is u) l = [r].
Proof.
  induction l as [|x l IH]; simpl; [discriminate|].
  intros N F. inversion N as [|? ? Hx Hl]; subst.
  destruct (username_is u x) eqn:E.
  - injection F as <-. f_equal.
    apply username_is_eq in E.
    destruct (filter (username_is u) l) as [|y l'] eqn:Fl; [reflexivity|].
    exfalso. apply Hx.
    assert (Hy : In y (filter (username_is u) l)) by (rewrite Fl; now left).
    apply filter_In in Hy. destruct Hy as [Hin Hy].
    apply username_is_eq in Hy. rewrite E, <- Hy. now apply in_map.
  - auto.
Qed.

Lemma find_map_credentials (v u : string) (salt h : bytes) (l : list row) :
  find (username_is v)
    (map (fun r => if username_is u r then set_credentials salt h r else r) l)
  = option_map (fun r => if username_is u r then set_credentials salt h r else r)
      (find (username_is v) l).
Proof.
  induction l as [|x l IH]; simpl; [reflexivity|].
  assert (E : username_is v
                (if username_is u x then set_credentials salt h x else x)
              = username_is v x) by (destruct (username_is u x); reflexivity).
  rewrite E. destruct (username_is v x); [reflexivity | exact IH].
Qed.

Lemma find_filter_other (v u : string) (l : list row) :
  v <> u ->
  find (username_is v) (filter (fun r => negb (username_is u r)) l)
  = find (username_is v) l.
Proof.
  intros N. induction l as [|x l IH]; simpl; [reflexivity|].
  destruct (username_is u x) eqn:U; simpl.
  - destruct (username_is v x) eqn:V; [|exact IH].
    apply username_is_eq in U. apply username_is_eq in V. congruence.
  - destruct (username_is v x); [reflexivity | exact IH].
Qed.

Lemma find_filter_self (u : string) (l : list row) :
  find (username_is u) (filter (fun r => negb (username_is u r)) l) = None.
Proof.
  induction l as [|x l IH]; simpl; [reflexivity|].
  destruct (username_is u x) eqn:U; simpl; [exact IH|]. now rewrite U.
Qed.

Lemma filter_none_id (u : string) (l : list row) :
  filter (username_is u) l = [] ->
  filter (fun r => negb (username_is u r)) l = l.
Proof.
  induction l as [|x l IH]; simpl; [reflexivity|].
  destruct (username_is u x); simpl; [discriminate|].
  intros H. now rewrite IH.
Qed.

Lemma filter_others_again (u : string) (l : list row) :
  filter (fun r => negb (username_is u r))
    (filter (fun r => negb (username_is u r)) l)
  = filter (fun r => negb (username_is u r)) l.
Proof.
  induction l as [|y l IH]; simpl; [reflexivity|].
  destruct (username_is u y) eqn:U; simpl; [exact IH|].
  rewrite U. simpl. now rewrite IH.
Qed.

End Rows.

(* ================================================================== *)
(** * The operations, case by case *)

(** The world once [n] bytes of entropy are used. *)
Lemma policy_gate (enforce : bool) (p : pyobj) (w : world) :
  (if enforce
   then let (ok, msg) := validate_password_rules p in
        if negb ok then raise (ValueError msg) else ret tt
   else ret tt) w
  = if enforce && negb (fst (validate_password_rules p))
    then (Raise (ValueError (snd (validate_password_rules p))), w)
    else (Return tt, w).
Proof.
  destruct enforce; [|reflexivity].
  destruct (validate_password_rules p) as [[|] msg]; reflexivity.
Qed.

(** [create_user] that stops before the [INSERT]: the store is untouched. *)
Lemma create_user_refused (w : world) (u : string) (p : pyobj)
    (adm enforce : bool) :
  (strip u = ""%string ->
   create_user u p adm enforce w
   = (Raise (ValueError "Username cannot be empty."), w))
  /\ (strip u <> ""%string -> enforce = true ->
      fst (validate_password_rules p) = false ->
      create_user u p adm enforce w
      = (Raise (ValueError (snd (validate_password_rules p))), w))
  /\ (strip u <> ""%string -> enforce = false -> hashable p = false ->
      result (create_user u p adm enforce) w
      = Raise (ValueError "Password must be a non-empty string.")
      /\ db (after (create_user u p adm enforce) w) = db w).
Proof.
  unfold create_user, result, after. rewrite str_or_empty. repeat split.
  - intros H. apply str_not_true in H. now rewrite H.
  - intros Hu He Hv. apply str_not_false in Hu. rewrite Hu.
    unfold bind at 1. rewrite policy_gate, He, Hv. reflexivity.
  - apply str_not_false in H. rewrite H. subst enforce.
    unfold bind, token_bytes. simpl.
    now rewrite hash_password_rejects.
  - apply str_not_false in H. rewrite H. subst enforce.
    unfold bind, token_bytes. simpl.
    now rewrite hash_password_rejects.
Qed.

Lemma create_user_duplicate (w : world) (t : table) (u s : string) (r : row)
    (adm enforce : bool) :
  db w = Some t ->
  strip u <> ""%string -> s <> ""%string ->
  policy_ok enforce (PyStr s) ->
  find_row (strip u) t = Some r ->
  create_user u (PyStr s) adm enforce w
  = (Raise unique_failed,
     mkWorld (Some t) (fun i => entropy w (16 + i)) (fun i => clock w (S i))
       (trace w ++ [EvPbkdf2 default_iterations])).
Proof.
  intros Hdb Hu Hs Hp F. unfold create_user.
  rewrite str_or_empty. apply str_not_false in Hu. rewrite Hu.
  unfold bind at 1.
  assert (G : enforce && negb (fst (validate_password_rules (PyStr s))) = false).
  { destruct enforce; [|reflexivity]. now rewrite (Hp eq_refl). }
  rewrite policy_gate, G. unfold bind at 1, token_bytes. unfold bind at 1.
  rewrite hash_password_str by assumption.
  erewrite insert_user_taken by (simpl; eauto). reflexivity.
Qed.

Lemma set_password_blank (w : world) (u : string) (p : pyobj) :
  strip u = ""%string -> set_password u p w = (Return false, w).
Proof.
  intros H. unfold set_password. rewrite str_or_empty.
  apply str_not_true in H. now rewrite H.
Qed.

Lemma set_password_policy (w : world) (u : string) (p : pyobj) :
  strip u <> ""%string ->
  fst (validate_password_rules p) = false ->
  set_password u p w = (Raise (ValueError (snd (validate_password_rules p))), w).
Proof.
  intros Hu Hv. unfold set_password. rewrite str_or_empty.
  apply str_not_false in Hu. rewrite Hu.
  destruct (validate_password_rules p) as [ok msg]. simpl in *. now subst ok.
Qed.

Lemma set_password_updates (w : world) (t : table) (u s : string) :
  db w = Some t ->
  strip u <> ""%string ->
  fst (validate_password_rules (PyStr s)) = true ->
  set_password u (PyStr s) w
  = (Return (0 <? List.length (rows_of (strip u) t)), updated w t (strip u) s).
Proof.
  intros Hdb Hu Hv. unfold set_password. rewrite str_or_empty.
  apply str_not_false in Hu. rewrite Hu.
  assert (Hs : s <> ""%string).
  { apply valid_password_hashable in Hv. simpl in Hv.
    now apply negb_true_iff, String.eqb_neq in Hv. }
  destruct (validate_password_rules (PyStr s)) as [ok msg]. simpl in Hv.
  subst ok. cbn [negb].
  unfold bind at 1, token_bytes. unfold bind at 1.
  rewrite hash_password_str by assumption.
  unfold bind, update_credentials, execute. simpl. rewrite Hdb. reflexivity.
Qed.

Lemma delete_user_blank (w : world) (u : string) :
  strip u = ""%string -> delete_user u w = (Return false, w).
Proof.
  intros H. unfold delete_user. rewrite str_or_empty.
  apply str_not_true in H. now rewrite H.
Qed.

Lemma delete_user_deletes (w : world) (t : table) (u : string) :
  db w = Some t ->
  strip u <> ""%string ->
  delete_user u w
  = (Return (0 <? List.length (rows_of (strip u) t)),
     with_db w (Some (deleted_table t (strip u)))).
Proof.
  intros Hdb Hu. unfold delete_user. rewrite str_or_empty.
  apply str_not_false in Hu. rewrite Hu.
  unfold bind, delete_by_username, execute. rewrite Hdb. reflexivity.
Qed.

Lemma get_user_by_username_run (w : world) (t : table) (u : string) :
  db w = Some t ->
  strip u <> ""%string ->
  get_user_by_username u w
  = (Return (option_map User_of_row (find_row (strip u) t)), w).
Proof.
  intros Hdb Hu. unfold get_user_by_username. rewrite str_or_empty.
  apply str_not_false in Hu. rewrite Hu.
  unfold bind. rewrite (select_by_username_run _ _ Hdb).
  destruct (find_row (strip u) t); reflexivity.
Qed.

Lemma found_row_wf (t : table) (u : string) (r : row) :
  wf_table t -> find_row u t = Some r -> wf_row r /\ u <> ""%string.
Proof.
  intros [_ W] F. apply find_row_username in F. destruct F as [Hin <-].
  rewrite Forall_forall in W. specialize (W r Hin). split; [exact W | apply W].
Qed.

Lemma found_rows_positive (t : table) (u : string) (r : row) :
  find_row u t = Some r -> (0 <? List.length (rows_of u t)) = true.
Proof.
  intros F. destruct (rows_of u t) eqn:E; [|reflexivity].
  apply find_row_none in E. congruence.
Qed.

(* ================================================================== *)
(** * [ORDER BY is_admin DESC, username ASC] *)

Section Ordering.

Lemma string_leb_refl (a : string) : String.leb a a = true.
Proof.
  unfold String.leb.
  assert (E : String.compare a a = Eq).
  { induction a as [|x a IH]; simpl; [reflexivity|].
    unfold Ascii.compare. now rewrite N.compare_refl. }
  now rewrite E.
Qed.

Lemma string_leb_trans (a b c : string) :
  String.leb a b = true -> String.leb b c = true -> String.leb a c = true.
Proof.
  unfold String.leb. revert b c.
  induction a as [|x a IH]; intros [|y b] [|z c]; simpl; try congruence.
  unfold Ascii.compare.
  destruct (N.compare_spec (N_of_ascii x) (N_of_ascii y)) as [E1|L1|G1];
    destruct (N.compare_spec (N_of_ascii y) (N_of_ascii z)) as [E2|L2|G2];
    destruct (N.compare_spec (N_of_ascii x) (N_of_ascii z)) as [E3|L3|G3];
    try congruence; try lia.
  apply IH.
Qed.

Lemma order_leb_total (r1 r2 : row) :
  order_leb r1 r2 = true \/ order_leb r2 r1 = true.
Proof.
  unfold order_leb.
  destruct (Z.ltb_spec (col_is_admin r2) (col_is_admin r1)); [now left|].
  destruct (Z.ltb_spec (col_is_admin r1) (col_is_admin r2)); [now right|].
  assert (E : col_is_admin r1 = col_is_admin r2) by lia.
  rewrite E, Z.eqb_refl. simpl.
  apply String.leb_total.
Qed.

Lemma order_leb_trans (r1 r2 r3 : row) :
  order_leb r1 r2 = true -> order_leb r2 r3 = true -> order_leb r1 r3 = true.
Proof.
  unfold order_leb. rewrite !orb_true_iff, !andb_true_iff, !Z.ltb_lt, !Z.eqb_eq.
  intros [L1 | [E1 S1]] [L2 | [E2 S2]].
  - left. lia.
  - left. lia.
  - left. lia.
  - right. split; [lia|]. eapply string_leb_trans; eauto.
Qed.

Lemma order_insert_perm (r : row) (l : list row) :
  Permutation (order_insert r l) (r :: l).
Proof.
  induction l as [|y l IH]; simpl; [reflexivity|].
  destruct (order_leb r y); [reflexivity|].
  rewrite IH. apply perm_swap.
Qed.

Lemma order_by_perm (l : list row) : Permutation (order_by l) l.
Proof.
  induction l as [|x l IH]; simpl; [reflexivity|].
  rewrite order_insert_perm. now constructor.
Qed.

Lemma order_insert_sorted (r : row) (l : list row) :
  StronglySorted (fun a b => order_leb a b = true) l ->
  StronglySorted (fun a b => order_leb a b = true) (order_insert r l).
Proof.
  induction l as [|y l IH]; simpl; intros S.
  - repeat constructor.
  - inversion S as [|? ? Sl Fy]; subst.
    destruct (order_leb r y) eqn:E.
    + constructor; [exact S|]. constructor; [exact E|].
      rewrite Forall_forall in *. intros z Hz.
      eapply order_leb_trans; eauto.
    + constructor; [now apply IH|].
      assert (Hyr : order_leb y r = true).
      { destruct (order_leb_total r y); congruence. }
      rewrite Forall_forall in *. intros z Hz.
      apply (Permutation_in _ (order_insert_perm r l)) in Hz.
      destruct Hz as [<- | Hz]; auto.
Qed.

Lemma order_by_sorted (l : list row) :
  StronglySorted (fun a b => order_leb a b = true) (order_by l).
Proof.
  induction l as [|x l IH]; simpl; [constructor | now apply order_insert_sorted].
Qed.

(** On rows whose [is_admin] is 0 or 1, the order of the query is the
    order of the listing. *)
Lemma order_leb_listed (r1 r2 : row) :
  wf_row r1 -> wf_row r2 ->
  order_leb r1 r2 = true -> listed_before (listing r1) (listing r2).
Proof.
  intros [_ A1] [_ A2]. unfold order_leb, listed_before, listing, bool_of_int.
  simpl. rewrite orb_true_iff, andb_true_iff, Z.ltb_lt, Z.eqb_eq.
  destruct A1 as [-> | ->], A2 as [-> | ->]; simpl; intros [L | [E S]];
    try lia; auto.
Qed.

Lemma sorted_listing (l : list row) :
  Forall wf_row l ->
  StronglySorted (fun a b => order_leb a b = true) l ->
  StronglySorted listed_before (map listing l).
Proof.
  intros W S. induction S as [|x l S IH F]; simpl; [constructor|].
  inversion W as [|? ? Wx Wl]; subst.
  constructor; [now apply IH|].
  rewrite Forall_forall in *. intros y Hy.
  apply in_map_iff in Hy. destruct Hy as [z [<- Hz]].
  apply order_leb_listed; auto.
Qed.

(** A listing in that order is the administrators, then the others. *)
Lemma sorted_admins_first (l : list (string * bool)) :
  StronglySorted listed_before l ->
  exists admins others,
    l = admins ++ others
    /\ Forall (fun x => snd x = true) admins
    /\ Forall (fun x => snd x = false) others.
Proof.
  induction 1 as [|x l S IH F]; [exists [], []; auto|].
  destruct IH as (a & o & -> & Fa & Fo).
  destruct (snd x) eqn:E.
  - exists (x :: a), o. repeat split; auto.
  - exists [], (x :: a ++ o). repeat split; auto.
    constructor; [exact E|].
    rewrite Forall_forall in *. intros y Hy. specialize (F y Hy).
    destruct F as [[H _] | [H _]]; congruence.
Qed.

End Ordering.

Lemma list_users_run (w : world) (t : table) :
  db w = Some t ->
  list_users w = (Return (map listing (order_by (rows t))), w).
Proof.
  intros Hdb. unfold list_users, bind, select_ordered, query.
  rewrite Hdb. reflexivity.
Qed.

(* ================================================================== *)
(** * [init_db] *)

Section Seeding.

Lemma absent_find (t : table) (u : string) :
  absent t u = true <-> find_row u t = None.
Proof.
  unfold absent, find_row. rewrite negb_true_iff.
  induction (rows t) as [|x l IH]; simpl; [tauto|].
  destruct (username_is u x); simpl; [split; discriminate | exact IH].
Qed.

Lemma find_app_some (u : string) (l l' : list row) (r : row) :
  find (username_is u) l = Some r -> find (username_is u) (l ++ l') = Some r.
Proof.
  induction l as [|x l IH]; simpl; [discriminate|].
  destruct (username_is u x); auto.
Qed.

Lemma find_app_other (v u : string) (l : list row) (r : row) :
  col_username r = u -> v <> u ->
  find (username_is v) (l ++ [r]) = find (username_is v) l.
Proof.
  intros Hr N. induction l as [|x l IH]; simpl.
  - destruct (username_is v r) eqn:E; [|reflexivity].
    apply username_is_eq in E. congruence.
  - destruct (username_is v x); auto.
Qed.

Lemma seed_one_run (w : world) (t : table) (seed : string * string * bool) :
  db w = Some t -> good_seed seed ->
  seed_one seed w
  = (Return tt,
     match find_row (seed_name seed) t with
     | Some _ => w
     | None => created w t (seed_name seed) (snd (fst seed)) (snd seed)
     end).
Proof.
  destruct seed as [[u p] a]. unfold good_seed, seed_name. simpl.
  intros Hdb (Hs & Hu & Hp). unfold seed_one.
  assert (Hu' : strip u <> ""%string) by congruence.
  unfold bind at 1. rewrite get_user_by_username_run with (t := t) by assumption.
  rewrite Hs.
  destruct (find_row u t) as [r|] eqn:F; simpl; [reflexivity|].
  rewrite create_user_inserts with (t := t); try assumption.
  - now rewrite Hs.
  - discriminate.
  - now rewrite Hs.
Qed.

Lemma for_each_seeded (seeds : list (string * string * bool)) (w : world)
    (t : table) :
  db w = Some t -> Forall good_seed seeds ->
  for_each seeds seed_one w = (Return tt, seeded seeds w).
Proof.
  revert w t. induction seeds as [|seed rest IH]; intros w t Hdb G; simpl.
  - reflexivity.
  - inversion G as [|? ? Gs Gr]; subst. unfold bind.
    rewrite seed_one_run with (t := t) by assumption. rewrite Hdb.
    destruct (find_row (seed_name seed) t) eqn:F.
    + now apply IH with (t := t).
    + eapply IH; [reflexivity | exact Gr].
Qed.


Lemma wf_table_created (t : table) (u : string) (salt h : bytes) (adm : bool)
    (now : string) (i q : Z) :
  wf_table t -> find_row u t = None -> u <> ""%string ->
  wf_table (mkTable (rows t ++ [mkRow i u salt h (if adm then 1 else 0)%Z now]) q).
Proof.
  intros [N W] F Hu. split; simpl.
  - rewrite map_app. simpl.
    apply NoDup_app; [exact N | repeat constructor; intros [] |].
    intros x Hx [<- | []].
    apply in_map_iff in Hx. destruct Hx as [r [Hr Hin]].
    apply (find_none _ _ F) in Hin. apply username_is_eq in Hr. congruence.
  - apply Forall_app. split; [exact W|]. constructor; [|constructor].
    split; simpl; [exact Hu | destruct adm; auto].
Qed.

(** What the seeding loop does to a table: the rows it held stay, and one
    row is appended for each seed that was absent, in the order of the
    seeds. *)
Lemma seeded_rows (seeds : list (string * string * bool)) :
  Forall good_seed seeds -> NoDup (map seed_name seeds) ->
  forall (w : world) (t : table),
    db w = Some t ->
    exists t1 new,
      db (seeded seeds w) = Some t1
      /\ rows t1 = rows t ++ new
      /\ map listing new
         = filter (fun x => absent t (fst x)) (map seed_listing seeds)
      /\ Forall (fun seed => absent t1 (seed_name seed) = false) seeds
      /\ (wf_table t -> wf_table t1).
Proof.
  induction seeds as [|seed rest IH]; intros G N w t Hdb; simpl.
  - exists t, []. rewrite app_nil_r.
    split; [exact Hdb|]. split; [reflexivity|]. split; [reflexivity|].
    split; [constructor | auto].
  - inversion G as [|? ? Gs Gr]; subst. inversion N as [|? ? Ns Nr]; subst.
    rewrite Hdb. destruct (find_row (seed_name seed) t) as [r|] eqn:F.
    + destruct (IH Gr Nr w t Hdb) as (t1 & new & D & R & L & P & W).
      exists t1, new. split; [exact D|]. split; [exact R|].
      split; [|split; [|exact W]].
      * assert (A : absent t (seed_name seed) = false).
        { destruct (absent t (seed_name seed)) eqn:A; [|reflexivity].
          apply absent_find in A. congruence. }
        unfold seed_listing at 1. simpl. unfold seed_name in A. now rewrite A.
      * constructor; [|exact P].
        destruct (absent t1 (seed_name seed)) eqn:A; [|reflexivity].
        apply absent_find in A. unfold find_row in A, F. rewrite R in A.
        rewrite (find_app_some _ _ new r F) in A. discriminate.
    + set (r := mkRow (next_rowid t) (seed_name seed) (next_salt w)
                  (digest (snd (fst seed)) (next_salt w))
                  (if snd seed then 1 else 0)%Z (clock w 0)).
      set (t' := mkTable (rows t ++ [r]) (next_rowid t)).
      destruct (IH Gr Nr (created w t (seed_name seed) (snd (fst seed)) (snd seed))
                  t' eq_refl) as (t1 & new & D & R & L & P & W).
      exists t1, (r :: new). split; [exact D|]. split; [|split; [|split]].
      * rewrite R. simpl. now rewrite <- app_assoc.
      * simpl. apply absent_find in F. unfold seed_name in F. rewrite F.
        f_equal.
        { unfold listing, seed_listing, bool_of_int, seed_name. simpl.
          now destruct (snd seed). }
        rewrite L. apply filter_ext_in. intros x Hx.
        apply in_map_iff in Hx. destruct Hx as [sd [<- Hsd]].
        unfold absent, seed_listing. simpl. f_equal.
        rewrite existsb_app. simpl. rewrite orb_false_r.
        assert (E : username_is (fst (fst sd)) r = false).
        { destruct (username_is (fst (fst sd)) r) eqn:E; [|reflexivity].
          apply username_is_eq in E. unfold r, seed_name in E. simpl in E.
          exfalso. apply Ns.
          apply in_map_iff. exists sd. split; [|exact Hsd].
          unfold seed_name. congruence. }
        rewrite E. apply orb_false_r.
      * constructor; [|exact P].
        destruct (absent t1 (seed_name seed)) eqn:A; [|reflexivity].
        apply absent_find in A. unfold find_row in A. rewrite R in A.
        assert (Fr : find (username_is (seed_name seed)) (rows t ++ [r]) = Some r).
        { apply find_row_app_fresh; [exact F | apply username_is_refl]. }
        change (rows t') with (rows t ++ [r]) in A.
        rewrite (find_app_some _ _ new r Fr) in A. discriminate.
      * intros Wt. apply W. apply wf_table_created; auto. apply Gs.
Qed.

Lemma good_seed_users : Forall good_seed seed_users.
Proof.
  repeat constructor; try reflexivity; discriminate.
Qed.

Lemma seed_users_distinct : NoDup (map seed_name seed_users).
Proof.
  repeat constructor; simpl; intuition discriminate.
Qed.

End Seeding.

(* ================================================================== *)
(** * The directory part of [db_path] *)

Section Paths.

Lemma upto_last_sep_empty (p : string) :
  upto_last_sep p = ""%string <-> has_sep p = false.
Proof.
  unfold has_sep. induction p as [|c q IH]; simpl; [tauto|].
  fold (has_sep q). unfold has_sep.
  destruct (re_search is_sep q) eqn:Q.
  - rewrite orb_true_r. split; discriminate.
  - rewrite orb_false_r. destruct (is_sep c); split; try discriminate; auto.
Qed.

Lemma rstrip_sep_empty (s : string) :
  rstrip_sep s = ""%string -> all_sep s = true.
Proof.
  induction s as [|c s IH]; simpl; [reflexivity|].
  destruct (rstrip_sep s) eqn:R; [|discriminate].
  destruct (is_sep c); [|discriminate]. intros _. now apply IH.
Qed.

(** [os.path.dirname(p)] is empty exactly when [p] has no slash. *)
Lemma dirname_empty (p : string) :
  dirname p = ""%string <-> has_sep p = false.
Proof.
  rewrite <- upto_last_sep_empty. unfold dirname, str_not.
  destruct (upto_last_sep p) as [|c h] eqn:H; [simpl; tauto|].
  cbn [String.eqb negb andb].
  destruct (all_sep (String c h)) eqn:A; cbn [negb]; [tauto|].
  split; [|discriminate].
  intros R. apply rstrip_sep_empty in R. congruence.
Qed.



Lemma nul_in_head (p : string) :
  re_search is_nul p = false -> re_search is_nul (upto_last_sep p) = false.
Proof.
  induction p as [|c q IH]; simpl; [reflexivity|].
  intros N. apply orb_false_iff in N. destruct N as [Nc Nq].
  destruct (has_sep q); simpl.
  - rewrite Nc. now apply IH.
  - destruct (is_sep c); simpl; [now rewrite Nc | reflexivity].
Qed.

Lemma nul_in_rstrip (s : string) :
  re_search is_nul s = false -> re_search is_nul (rstrip_sep s) = false.
Proof.
  induction s as [|c s IH]; simpl; [reflexivity|].
  intros N. apply orb_false_iff in N. destruct N as [Nc Ns].
  specialize (IH Ns). destruct (rstrip_sep s) eqn:R.
  - destruct (is_sep c); simpl; [reflexivity | now rewrite Nc].
  - cbn [re_search]. cbn [re_search] in IH. now rewrite Nc, IH.
Qed.

Lemma nul_in_dirname (p : string) :
  re_search is_nul p = false -> re_search is_nul (dirname p) = false.
Proof.
  intros N. unfold dirname.
  destruct (negb (str_not (upto_last_sep p)) && negb (all_sep (upto_last_sep p))).
  - now apply nul_in_rstrip, nul_in_head.
  - now apply nul_in_head.
Qed.

(** With the name of a file in a directory, what is left of [init_db] is
    the schema and the seeds. *)
Lemma init_db_named (db_path : string) (w : world) :
  names_file db_path = true ->
  init_db db_path w
  = (create_table_if_not_exists ;; for_each seed_users seed_one) w.
Proof.
  unfold names_file. intros N.
  apply andb_true_iff in N. destruct N as [N F].
  apply andb_true_iff in N. destruct N as [D Z].
  apply negb_true_iff in D, Z, F.
  unfold init_db, makedirs, _connect. rewrite D, Z, F.
  rewrite (nul_in_dirname db_path Z). reflexivity.
Qed.

End Paths.

(* ================================================================== *)
(** * Further facts about [auth.py] *)

Section Strip.

Lemma rstrip_nonspace (c : ascii) (s : string) :
  isspace c = false -> rstrip (String c s) = String c (rstrip s).
Proof.
  intros H. simpl. rewrite H. now destruct (rstrip s).
Qed.

Lemma rstrip_again (s : string) : rstrip (rstrip s) = rstrip s.
Proof.
  induction s as [|c s IH]; simpl; [reflexivity|].
  destruct (rstrip s) as [|d r] eqn:E.
  - destruct (isspace c) eqn:C; simpl; [reflexivity | now rewrite C].
  - simpl in IH. simpl. destruct (rstrip r) as [|e r'] eqn:E'.
    + destruct (isspace d); [discriminate IH | exact (f_equal (String c) IH)].
    + exact (f_equal (String c) IH).
Qed.

(** [lstrip] leaves the empty string or a string that starts with a
    character that is no whitespace. *)
Lemma lstrip_head (s : string) :
  lstrip s = ""%string
  \/ exists c r, lstrip s = String c r /\ isspace c = false.
Proof.
  induction s as [|c s IH]; simpl; [now left|].
  destruct (isspace c) eqn:C; [exact IH | right; eauto].
Qed.

Lemma lstrip_fixed (c : ascii) (s : string) :
  isspace c = false -> lstrip (String c s) = String c s.
Proof. intros H. simpl. now rewrite H. Qed.

(** Stripping twice is stripping once. *)
Lemma strip_again (s : string) : strip (strip s) = strip s.
Proof.
  unfold strip. destruct (lstrip_head s) as [E | (c & r & E & C)]; rewrite E.
  - reflexivity.
  - rewrite (rstrip_nonspace c r C), (lstrip_fixed c (rstrip r) C).
    rewrite <- (rstrip_nonspace c r C). apply rstrip_again.
Qed.

End Strip.

(* ================================================================== *)
(** * [create_user], every case *)

Lemma created_new_row (w : world) (t : table) (u s : string) (adm : bool) :
  db (created w t u s adm)
  = Some (mkTable (rows t ++ [new_row w t u s adm]) (next_rowid t)).
Proof. reflexivity. Qed.

(** The outcome of [create_user] when the table exists, check by check. *)
Lemma create_user_outcome (w : world) (t : table) (u : string) (p : pyobj)
    (adm enforce : bool) :
  db w = Some t ->
  create_user u p adm enforce w
  = if str_not (strip u) then
      (Raise (ValueError "Username cannot be empty."), w)
    else if enforce && negb (fst (validate_password_rules p)) then
      (Raise (ValueError (snd (validate_password_rules p))), w)
    else if negb (hashable p) then
      (Raise (ValueError "Password must be a non-empty string."), drawn w)
    else
      match p, find_row (strip u) t with
      | PyStr s, None => (Return tt, created w t (strip u) s adm)
      | _, _ =>
          (Raise unique_failed,
           mkWorld (Some t) (fun i => entropy w (16 + i))
             (fun i => clock w (S i))
             (trace w ++ [EvPbkdf2 default_iterations]))
      end.
Proof.
  intros Hdb. destruct (str_not (strip u)) eqn:Hu.
  - apply str_not_true in Hu.
    now destruct (create_user_refused w u p adm enforce) as (R & _ & _); auto.
  - apply str_not_false in Hu.
    destruct (enforce && negb (fst (validate_password_rules p))) eqn:G.
    + apply andb_true_iff in G. destruct G as [He G].
      apply negb_true_iff in G.
      destruct (create_user_refused w u p adm enforce) as (_ & R & _); auto.
    + assert (P : policy_ok enforce p).
      { intros He. rewrite He in G. cbn [andb] in G.
        now apply negb_false_iff in G. }
      destruct (hashable p) eqn:Hh; cbn [negb].
      * destruct (hashable_str p Hh) as [s [E Hs]]. subst p.
        destruct (find_row (strip u) t) as [r|] eqn:F.
        -- exact (create_user_duplicate w t u s r adm enforce Hdb Hu Hs P F).
        -- exact (create_user_inserts w t u s adm enforce Hdb Hu Hs P F).
      * unfold create_user. rewrite str_or_empty.
        apply str_not_false in Hu. rewrite Hu.
        unfold bind at 1. rewrite policy_gate, G.
        unfold bind, token_bytes. rewrite hash_password_rejects by exact Hh.
        reflexivity.
Qed.

(* ================================================================== *)
(** * What the operations keep *)

Section Invariants.

Lemma fold_max_bounds (l : list Z) (q : Z) :
  (q <= fold_right Z.max q l)%Z
  /\ Forall (fun x => (x <= fold_right Z.max q l)%Z) l.
Proof.
  induction l as [|x l [IHq IHl]]; simpl.
  - split; [lia | constructor].
  - split; [lia|]. constructor; [lia|].
    eapply Forall_impl; [|exact IHl]. simpl. intros; lia.
Qed.

Lemma next_rowid_fresh (t : table) :
  (seq t < next_rowid t)%Z
  /\ Forall (fun r => (col_id r < next_rowid t)%Z) (rows t).
Proof.
  unfold next_rowid.
  destruct (fold_max_bounds (map col_id (rows t)) (seq t)) as [Hq Hl].
  split; [lia|]. rewrite Forall_forall in *. intros r Hr.
  specialize (Hl (col_id r) (in_map col_id _ _ Hr)). simpl in Hl. lia.
Qed.

Lemma NoDup_map_filter {A B : Type} (f : A -> B) (g : A -> bool) (l : list A) :
  NoDup (map f l) -> NoDup (map f (filter g l)).
Proof.
  induction l as [|x l IH]; simpl; intros N; [constructor|].
  inversion N as [|? ? Hx Hl]; subst.
  destruct (g x); simpl; [|auto]. constructor; [|auto].
  intros Hin. apply Hx. apply in_map_iff in Hin.
  destruct Hin as [y [E Hy]]. apply filter_In in Hy.
  apply in_map_iff. exists y. tauto.
Qed.

Lemma Forall_filter {A : Type} (P : A -> Prop) (g : A -> bool) (l : list A) :
  Forall P l -> Forall P (filter g l).
Proof.
  rewrite !Forall_forall. intros H x Hx. apply filter_In in Hx. apply H, Hx.
Qed.

Lemma wf_table_deleted (t : table) (u : string) :
  wf_table t -> wf_table (deleted_table t u).
Proof.
  intros [N W]. split; simpl.
  - now apply NoDup_map_filter.
  - now apply Forall_filter.
Qed.

Lemma ids_ok_deleted (t : table) (u : string) :
  ids_ok t -> ids_ok (deleted_table t u).
Proof.
  intros [N B]. split; simpl.
  - now apply NoDup_map_filter.
  - now apply Forall_filter.
Qed.

Lemma map_credentials_columns (u : string) (salt h : bytes) (l : list row) :
  let l' := map (fun r => if username_is u r then set_credentials salt h r else r) l in
  map col_username l' = map col_username l
  /\ map col_id l' = map col_id l
  /\ map col_is_admin l' = map col_is_admin l
  /\ map col_created_at l' = map col_created_at l.
Proof.
  simpl. induction l as [|x l (A & B & C & D)]; simpl; [auto|].
  rewrite A, B, C, D. destruct (username_is u x); auto.
Qed.

Lemma wf_table_updated (w : world) (t : table) (u s : string) :
  wf_table t -> wf_table (updated_table w t u s).
Proof.
  intros [N W]. unfold updated_table. split; simpl.
  - destruct (map_credentials_columns u (next_salt w) (digest s (next_salt w))
                (rows t)) as (A & _). simpl in A. now rewrite A.
  - rewrite Forall_forall in *. intros r Hr. apply in_map_iff in Hr.
    destruct Hr as [x [<- Hx]]. specialize (W x Hx).
    destruct (username_is u x); exact W.
Qed.

Lemma ids_ok_updated (w : world) (t : table) (u s : string) :
  ids_ok t -> ids_ok (updated_table w t u s).
Proof.
  intros [N B]. unfold updated_table. split; simpl.
  - destruct (map_credentials_columns u (next_salt w) (digest s (next_salt w))
                (rows t)) as (_ & A & _). simpl in A. now rewrite A.
  - rewrite Forall_forall in *. intros r Hr. apply in_map_iff in Hr.
    destruct Hr as [x [<- Hx]]. specialize (B x Hx).
    destruct (username_is u x); exact B.
Qed.

Lemma ids_ok_created (w : world) (t : table) (u s : string) (adm : bool) :
  ids_ok t ->
  ids_ok (mkTable (rows t ++ [new_row w t u s adm]) (next_rowid t)).
Proof.
  intros [N B]. destruct (next_rowid_fresh t) as [Hq Hl]. split; simpl.
  - rewrite map_app. simpl.
    apply NoDup_app; [exact N | repeat constructor; intros [] |].
    intros x Hx [<- | []]. apply in_map_iff in Hx.
    destruct Hx as [r [E Hr]]. rewrite Forall_forall in Hl.
    specialize (Hl r Hr). lia.
  - apply Forall_app. split.
    + eapply Forall_impl; [|exact Hl]. simpl. intros; lia.
    + repeat constructor. simpl. lia.
Qed.

End Invariants.

Lemma create_user_no_table (w : world) (u : string) (p : pyobj)
    (adm enforce : bool) :
  db w = None ->
  exists e,
    result (create_user u p adm enforce) w = Raise e
    /\ db (after (create_user u p adm enforce) w) = None.
Proof.
  intros Hdb. unfold result, after.
  destruct (create_user_refused w u p adm enforce) as (R1 & R2 & R3).
  destruct (str_not (strip u)) eqn:Hu.
  - apply str_not_true in Hu. rewrite (R1 Hu).
    eexists; split; [reflexivity | exact Hdb].
  - apply str_not_false in Hu.
    destruct (enforce && negb (fst (validate_password_rules p))) eqn:G.
    + apply andb_true_iff in G. destruct G as [He G].
      apply negb_true_iff in G. rewrite (R2 Hu He G).
      eexists; split; [reflexivity | exact Hdb].
    + assert (E : create_user u p adm enforce w
                  = if hashable p
                    then (Raise no_such_table,
                          mkWorld (db w) (fun i => entropy w (16 + i)) (clock w)
                            (trace w ++ [EvPbkdf2 default_iterations]))
                    else (Raise (ValueError "Password must be a non-empty string."),
                          drawn w)).
      { unfold create_user. rewrite str_or_empty.
        apply str_not_false in Hu. rewrite Hu.
        unfold bind at 1. rewrite policy_gate, G.
        unfold bind at 1, token_bytes. unfold bind at 1.
        destruct (hashable p) eqn:Hh.
        - destruct (hashable_str p Hh) as [s [E Hs]]. subst p.
          rewrite hash_password_str by exact Hs.
          unfold insert_user. cbn [db]. rewrite Hdb. reflexivity.
        - rewrite hash_password_rejects by exact Hh. reflexivity. }
      rewrite E. destruct (hashable p);
        (eexists; split; [reflexivity | exact Hdb]).
Qed.

(* ================================================================== *)
(** * Lookups after writes *)

Lemma authenticate_no_table (w : world) (u : string) (p : pyobj) :
  db w = None -> strip u <> ""%string ->
  authenticate u p w = (Raise no_such_table, w).
Proof.
  intros Hdb Hu. unfold authenticate. rewrite str_or_empty.
  apply str_not_false in Hu. rewrite Hu.
  unfold bind, select_by_username, query. now rewrite Hdb.
Qed.

Lemma get_user_by_username_blank (w : world) (u : string) :
  strip u = ""%string -> get_user_by_username u w = (Return None, w).
Proof.
  intros H. unfold get_user_by_username. rewrite str_or_empty.
  apply str_not_true in H. now rewrite H.
Qed.

(** What [authenticate] returns depends on the table only through the row
    of the username. *)
Lemma authenticate_by_row (w1 w2 : world) (t1 t2 : table) (v : string)
    (p : pyobj) :
  db w1 = Some t1 -> db w2 = Some t2 ->
  find_row (strip v) t1 = find_row (strip v) t2 ->
  result (authenticate v p) w1 = result (authenticate v p) w2.
Proof.
  intros D1 D2 F. unfold result. destruct (str_not (strip v)) eqn:Hv.
  - apply str_not_true in Hv. now rewrite !(authenticate_blank v p _ Hv).
  - apply str_not_false in Hv.
    destruct (find_row (strip v) t2) as [r|] eqn:F2.
    + destruct (hashable p) eqn:Hh.
      * destruct (hashable_str p Hh) as [s [E Hs]]. subst p.
        rewrite (authenticate_known w1 t1 D1 v s r Hv F Hs).
        rewrite (authenticate_known w2 t2 D2 v s r Hv F2 Hs). reflexivity.
      * rewrite (authenticate_unhashable w1 t1 D1 v p r F Hh).
        rewrite (authenticate_unhashable w2 t2 D2 v p r F2 Hh). reflexivity.
    + rewrite (authenticate_unknown w1 t1 D1 v p F).
      rewrite (authenticate_unknown w2 t2 D2 v p F2). reflexivity.
Qed.

Lemma get_user_by_row (w1 w2 : world) (t1 t2 : table) (v : string) :
  db w1 = Some t1 -> db w2 = Some t2 ->
  find_row (strip v) t1 = find_row (strip v) t2 ->
  result (get_user_by_username v) w1 = result (get_user_by_username v) w2.
Proof.
  intros D1 D2 F. unfold result. destruct (str_not (strip v)) eqn:Hv.
  - apply str_not_true in Hv. now rewrite !(get_user_by_username_blank _ v Hv).
  - apply str_not_false in Hv.
    rewrite (get_user_by_username_run w1 t1 v D1 Hv).
    rewrite (get_user_by_username_run w2 t2 v D2 Hv). now rewrite F.
Qed.

Lemma find_row_updated_other (w : world) (t : table) (u s v : string) :
  v <> u -> find_row v (updated_table w t u s) = find_row v t.
Proof.
  intros Hne. unfold find_row, updated_table. simpl.
  rewrite find_map_credentials.
  destruct (find (username_is v) (rows t)) as [x|] eqn:Fx; [|reflexivity].
  simpl. apply find_some in Fx. destruct Fx as [_ Fx].
  destruct (username_is u x) eqn:E; [|reflexivity].
  apply username_is_eq in E. apply username_is_eq in Fx. congruence.
Qed.

(** A write for the username [u] leaves the row of every other username. *)
Lemma writes_frame (w : world) (t : table) (u : string) :
  db w = Some t ->
  (forall p adm enforce,
     exists t', db (after (create_user u p adm enforce) w) = Some t'
                /\ forall v, v <> strip u -> find_row v t' = find_row v t)
  /\ (exists t', db (after (delete_user u) w) = Some t'
                 /\ forall v, v <> strip u -> find_row v t' = find_row v t)
  /\ (forall p,
        exists t', db (after (set_password u p) w) = Some t'
                   /\ forall v, v <> strip u -> find_row v t' = find_row v t).
Proof.
  intros Hdb. split; [|split].
  - intros p adm enforce. unfold after.
    rewrite (create_user_outcome w t u p adm enforce Hdb).
    destruct (str_not (strip u)); [exists t; auto|].
    destruct (enforce && negb (fst (validate_password_rules p)));
      [exists t; auto|].
    destruct (hashable p) eqn:Hh; cbn [negb]; [|exists t; auto].
    destruct (hashable_str p Hh) as [s [E _]]. subst p.
    destruct (find_row (strip u) t) eqn:F; [exists t; auto|].
    eexists. split; [reflexivity|]. intros v Hv. unfold find_row. simpl.
    now apply find_app_other with (u := strip u).
  - unfold after. destruct (str_not (strip u)) eqn:Hu.
    + apply str_not_true in Hu. rewrite (delete_user_blank w u Hu).
      exists t. auto.
    + apply str_not_false in Hu. rewrite (delete_user_deletes w t u Hdb Hu).
      eexists. split; [reflexivity|]. intros v Hv. unfold find_row. simpl.
      now apply find_filter_other.
  - intros p. unfold after. destruct (str_not (strip u)) eqn:Hu.
    + apply str_not_true in Hu. rewrite (set_password_blank w u p Hu).
      exists t. auto.
    + apply str_not_false in Hu.
      destruct (fst (validate_password_rules p)) eqn:V.
      * destruct (hashable_str p (valid_password_hashable p V)) as [s [E _]].
        subst p. rewrite (set_password_updates w t u s Hdb Hu V).
        eexists. split; [reflexivity|]. intros v Hv.
        now apply find_row_updated_other.
      * rewrite (set_password_policy w u p Hu V). exists t. auto.
Qed.

(* ================================================================== *)
(** * Rowids and listings *)

Lemma fold_max_bounded (l : list Z) (q : Z) :
  Forall (fun x => (x <= q)%Z) l -> fold_right Z.max q l = q.
Proof.
  induction 1 as [|x l Hx Hl IH]; simpl; [reflexivity|]. rewrite IH. lia.
Qed.

Lemma next_rowid_counter (t : table) :
  ids_ok t -> next_rowid t = (seq t + 1)%Z.
Proof.
  intros [_ B]. unfold next_rowid. rewrite fold_max_bounded; [lia|].
  apply Forall_map. exact B.
Qed.

Lemma NoDup_map_injective {A B : Type} (f : A -> B) (l : list A) (x y : A) :
  NoDup (map f l) -> In x l -> In y l -> f x = f y -> x = y.
Proof.
  induction l as [|z l IH]; simpl; intros N Hx Hy E; [contradiction|].
  inversion N as [|? ? Hz Hl]; subst.
  destruct Hx as [<- | Hx], Hy as [<- | Hy]; auto.
  - exfalso. apply Hz. rewrite E. now apply in_map.
  - exfalso. apply Hz. rewrite <- E. now apply in_map.
Qed.

(** Two sorted lists with the same elements are the same list, when the
    order tells the elements apart. *)
Lemma sorted_permutation_unique {A : Type} (R : A -> A -> Prop)
    (l1 l2 : list A) :
  StronglySorted R l1 -> StronglySorted R l2 -> Permutation l1 l2 ->
  (forall x y, In x l1 -> In y l1 -> R x y -> R y x -> x = y) ->
  l1 = l2.
Proof.
  intros S1. revert l2.
  induction S1 as [|x l1 S1 IH F1]; intros l2 S2 P Anti.
  - apply Permutation_nil in P. now subst.
  - destruct l2 as [|y l2]; [apply Permutation_sym, Permutation_nil in P; discriminate P|].
    inversion S2 as [|? ? S2' F2]; subst.
    assert (E : x = y).
    { assert (Hx : In x (y :: l2))
        by (apply (Permutation_in x P); now left).
      assert (Hy : In y (x :: l1))
        by (apply (Permutation_in y (Permutation_sym P)); now left).
      destruct Hx as [-> | Hx]; [reflexivity|].
      destruct Hy as [<- | Hy]; [reflexivity|].
      rewrite Forall_forall in F1, F2.
      apply Anti; [now left | now right | auto | auto]. }
    subst y. f_equal. apply IH; [exact S2' | |].
    + now apply Permutation_cons_inv with (a := x).
    + intros a b Ha Hb. apply Anti; now right.
Qed.

Lemma order_leb_antisym (l : list row) (x y : row) :
  NoDup (map col_username l) -> In x l -> In y l ->
  order_leb x y = true -> order_leb y x = true -> x = y.
Proof.
  intros N Hx Hy. unfold order_leb.
  rewrite !orb_true_iff, !andb_true_iff, !Z.ltb_lt, !Z.eqb_eq.
  intros [L1 | [E1 S1]] [L2 | [E2 S2]]; try lia.
  apply (NoDup_map_injective col_username l x y N Hx Hy).
  now apply String.leb_antisym.
Qed.

(** The query's order does not depend on the order of the rows. *)
Lemma order_by_permutation (l1 l2 : list row) :
  NoDup (map col_username l1) -> Permutation l1 l2 ->
  order_by l1 = order_by l2.
Proof.
  intros N P.
  apply (sorted_permutation_unique (fun a b => order_leb a b = true)).
  - apply order_by_sorted.
  - apply order_by_sorted.
  - rewrite (order_by_perm l1), P. symmetry. apply order_by_perm.
  - intros x y Hx Hy. apply (order_leb_antisym l1 x y N).
    + apply (Permutation_in x (order_by_perm l1) Hx).
    + apply (Permutation_in y (order_by_perm l1) Hy).
Qed.

Lemma delete_user_keeps_ids (w : world) (t : table) (u : string) :
  db w = Some t -> ids_ok t ->
  exists t1, db (after (delete_user u) w) = Some t1
             /\ ids_ok t1 /\ seq t1 = seq t.
Proof.
  intros Hdb I. unfold after. destruct (str_not (strip u)) eqn:Hu.
  - apply str_not_true in Hu. rewrite (delete_user_blank w u Hu).
    exists t. auto.
  - apply str_not_false in Hu. rewrite (delete_user_deletes w t u Hdb Hu).
    exists (deleted_table t (strip u)). split; [reflexivity|].
    split; [now apply ids_ok_deleted | reflexivity].
Qed.

(* ================================================================== *)
(** * The seed accounts after [init_db] *)

(** A seed that was absent has, after the loop, a row made from it. *)
Lemma seeded_row (seeds : list (string * string * bool)) :
  Forall good_seed seeds -> NoDup (map seed_name seeds) ->
  forall (w : world) (t : table) (seed : string * string * bool),
    db w = Some t -> In seed seeds ->
    find_row (seed_name seed) t = None ->
    exists t1 r,
      db (seeded seeds w) = Some t1
      /\ find_row (seed_name seed) t1 = Some r
      /\ col_pw_hash r = digest (snd (fst seed)) (col_salt r)
      /\ col_is_admin r = (if snd seed then 1 else 0)%Z.
Proof.
  induction seeds as [|seed0 rest IH]; intros G N w t seed Hdb Hin F;
    [contradiction|].
  inversion G as [|? ? G0 Gr]; subst. inversion N as [|? ? N0 Nr]; subst.
  simpl. rewrite Hdb. destruct Hin as [-> | Hin].
  - rewrite F.
    set (w' := created w t (seed_name seed) (snd (fst seed)) (snd seed)).
    set (r := new_row w t (seed_name seed) (snd (fst seed)) (snd seed)).
    destruct (seeded_rows rest Gr Nr w'
                (mkTable (rows t ++ [r]) (next_rowid t)) eq_refl)
      as (t1 & new & D & R & _).
    exists t1, r. split; [exact D|]. split; [|split; reflexivity].
    unfold find_row. rewrite R. simpl. apply find_app_some.
    apply find_row_app_fresh; [exact F | apply username_is_refl].
  - assert (Hne : seed_name seed <> seed_name seed0).
    { intros E. apply N0. rewrite <- E. now apply in_map. }
    destruct (find_row (seed_name seed0) t) eqn:F0.
    + now apply (IH Gr Nr w t seed Hdb Hin F).
    + apply (IH Gr Nr
               (created w t (seed_name seed0) (snd (fst seed0)) (snd seed0))
               (mkTable (rows t ++ [new_row w t (seed_name seed0)
                                      (snd (fst seed0)) (snd seed0)])
                  (next_rowid t)) seed eq_refl Hin).
      unfold find_row. simpl.
      rewrite (find_app_other (seed_name seed) (seed_name seed0)); auto.
Qed.

(* ================================================================== *)
(** * HMAC keys and trailing zero bytes *)

Section KeyPadding.

(** HMAC pads a key shorter than its block with zero bytes, so a zero byte
    at the end of such a key changes nothing. *)
Lemma hmac_key_zero (key msg : bytes) :
  List.length key < 64 ->
  Hashlib.hmac_sha256 (key ++ [x00]) msg = Hashlib.hmac_sha256 key msg.
Proof.
  intros L. unfold Hashlib.hmac_sha256.
  assert (L1 : Nat.ltb 64 (List.length (key ++ [x00])) = false).
  { apply Nat.ltb_ge. rewrite length_app. simpl. lia. }
  assert (L2 : Nat.ltb 64 (List.length key) = false).
  { apply Nat.ltb_ge. lia. }
  rewrite L1, L2. cbv zeta.
  assert (E : (key ++ [x00]) ++ repeat x00 (64 - List.length (key ++ [x00]))
              = key ++ repeat x00 (64 - List.length key)).
  { rewrite length_app. change (List.length [x00]) with 1.
    assert (R : 64 - List.length key = S (64 - (List.length key + 1))) by lia.
    rewrite R. cbn [repeat]. now rewrite <- app_assoc. }
  rewrite E. reflexivity.
Qed.

Lemma N_iter_ext {A : Type} (f g : A -> A) (n : N) (x : A) :
  (forall a, f a = g a) -> N.iter n f x = N.iter n g x.
Proof.
  intros E. induction n as [|n IH] using N.peano_ind.
  - reflexivity.
  - rewrite !N.iter_succ, IH. apply E.
Qed.

Transparent Hashlib.pbkdf2_hmac_sha256.

Lemma pbkdf2_key_zero (key salt : bytes) (iterations : N) :
  List.length key < 64 ->
  Hashlib.pbkdf2_hmac_sha256 (key ++ [x00]) salt iterations
  = Hashlib.pbkdf2_hmac_sha256 key salt iterations.
Proof.
  intros L. unfold Hashlib.pbkdf2_hmac_sha256. cbv zeta.
  rewrite (hmac_key_zero key _ L). f_equal.
  apply N_iter_ext. intros tu. now rewrite (hmac_key_zero key _ L).
Qed.

Opaque Hashlib.pbkdf2_hmac_sha256.

Lemma chars_append (s1 s2 : string) :
  list_ascii_of_string (s1 ++ s2)
  = list_ascii_of_string s1 ++ list_ascii_of_string s2.
Proof.
  induction s1 as [|c s1 IH]; simpl; [reflexivity | now rewrite IH].
Qed.

Lemma encode_utf8_nul (s : string) :
  encode_utf8 (s ++ String "000"%char EmptyString) = encode_utf8 s ++ [x00].
Proof.
  unfold encode_utf8. rewrite chars_append, flat_map_app. reflexivity.
Qed.

(** The digest of a password does not change when a NUL character is
    appended, as long as its UTF-8 form is shorter than 64 bytes. *)
Lemma digest_nul (s : string) (salt : bytes) :
  List.length (encode_utf8 s) < 64 ->
  digest (s ++ String "000"%char EmptyString) salt = digest s salt.
Proof.
  intros L. unfold digest. rewrite encode_utf8_nul.
  now apply pbkdf2_key_zero.
Qed.

End KeyPadding.

(* ================================================================== *)
(** * The rowids of the seed accounts *)

Section SeedRowids.




End SeedRowids.

(* ================================================================== *)
(** * The properties of the specification *)

(** C1.  A (username, password) pair that [create_user] accepted
    authenticates at once: [authenticate] returns a [User] whose username is
    the (stripped) username given to [create_user] and whose [is_admin] is
    the flag given. *)
Theorem C1_create_then_authenticate (w w' : world) (u : string) (p : pyobj)
    (adm enforce : bool) :
  create_user u p adm enforce w = (Return tt, w') ->
  exists usr,
    result (authenticate u p) w' = Return (Some usr)
    /\ username usr = strip u /\ is_admin usr = adm.
Proof.
  intros H. apply create_user_returned in H.
  destruct H as (t & s & Hdb & Hu & -> & Hs & _ & Hf & ->).
  set (r := mkRow (next_rowid t) (strip u) (next_salt w)
              (digest s (next_salt w)) (if adm then 1 else 0)%Z (clock w 0)).
  exists (User_of_row r). unfold result.
  erewrite authenticate_known with (r := r); try eassumption.
  - simpl. rewrite tscmp_refl. repeat split. now destruct adm.
  - reflexivity.
  - simpl. apply find_row_app_fresh; [exact Hf | apply username_is_refl].
Qed.

Lemma C1_witness :
  exists usr,
    result (authenticate "bob" (PyStr "Valid123!")) world_bob = Return (Some usr)
    /\ username usr = strip "bob" /\ is_admin usr = false.
Proof.
  apply (@C1_create_then_authenticate fresh_world world_bob "bob"
           (PyStr "Valid123!") false true).
  apply create_user_inserts.
  - reflexivity.
  - discriminate.
  - discriminate.
  - intros _. reflexivity.
  - reflexivity.
Defined.

(** C2 (as amended).  With the table present, [authenticate] never raises
    and never changes the store.  For a username without a row it returns
    [None] at once: nothing is hashed or compared.  For a username with a
    row and a non-empty [str] password it hashes once with the stored salt,
    compares the digests once with [secrets.compare_digest] (whose loop
    visits every byte of the stored digest), and returns the [User] exactly
    when the digests are equal, [None] otherwise.  Both failures return the
    same [None] and leave the same store; they differ in the work done. *)
Theorem C2_failed_logins (w : world) (t : table) (u : string) (p : pyobj) :
  db w = Some t ->
  (exists o, result (authenticate u p) w = Return o)
  /\ db (after (authenticate u p) w) = db w
  /\ (find_row (strip u) t = None -> authenticate u p w = (Return None, w))
  /\ (forall r s,
        strip u <> ""%string -> find_row (strip u) t = Some r ->
        p = PyStr s -> s <> ""%string ->
        trace (after (authenticate u p) w) =
          trace w ++ [EvPbkdf2 default_iterations;
                      EvCompareDigest (List.length (col_pw_hash r))]
        /\ (digest s (col_salt r) = col_pw_hash r ->
            result (authenticate u p) w = Return (Some (User_of_row r)))
        /\ (digest s (col_salt r) <> col_pw_hash r ->
            result (authenticate u p) w = Return None)).
Proof.
  intros Hdb.
  assert (K : forall r s, strip u <> ""%string ->
            find_row (strip u) t = Some r -> p = PyStr s -> s <> ""%string ->
            authenticate u p w =
              (Return (if tscmp (digest s (col_salt r)) (col_pw_hash r)
                       then Some (User_of_row r) else None),
               mkWorld (db w) (entropy w) (clock w)
                 (trace w ++ [EvPbkdf2 default_iterations;
                      EvCompareDigest (List.length (col_pw_hash r))]))).
  { intros r s Hu F -> Hs. now apply authenticate_known with (t := t). }
  assert (U : find_row (strip u) t = None ->
              authenticate u p w = (Return None, w)).
  { intros F. now apply authenticate_unknown with (t := t). }
  assert (G : exists o w1, authenticate u p w = (Return o, w1) /\ db w1 = db w).
  { destruct (str_not (strip u)) eqn:Hu.
    - apply str_not_true in Hu. rewrite (authenticate_blank u p w Hu). eauto.
    - apply str_not_false in Hu.
      clear K U. destruct (find_row (strip u) t) as [r|] eqn:F.
      + destruct (hashable p) eqn:Hh.
        * apply hashable_str in Hh. destruct Hh as [s [-> Hs]].
          rewrite authenticate_known with (t := t) (r := r); eauto.
        * rewrite authenticate_unhashable with (t := t) (r := r); eauto.
      + rewrite authenticate_unknown with (t := t); eauto. }
  destruct G as (o & w1 & E & D). unfold result, after.
  split; [|split; [|split]].
  - rewrite E. now exists o.
  - now rewrite E.
  - exact U.
  - intros r s Hu F Hp Hs. rewrite (K r s Hu F Hp Hs). simpl.
    split; [reflexivity|]. split; intros Hd.
    + apply tscmp_eq in Hd. now rewrite Hd.
    + destruct (tscmp _ _) eqn:T; [|reflexivity].
      apply tscmp_eq in T. contradiction.
Qed.

Lemma C2_witness :
  (exists o, result (authenticate "ghost" (PyStr "Wrong123!")) world_pair = Return o)
  /\ db (after (authenticate "ghost" (PyStr "Wrong123!")) world_pair)
     = db world_pair
  /\ (find_row (strip "ghost") table_pair = None ->
      authenticate "ghost" (PyStr "Wrong123!") world_pair
      = (Return None, world_pair))
  /\ (forall r s,
        strip "ghost" <> ""%string ->
        find_row (strip "ghost") table_pair = Some r ->
        PyStr "Wrong123!" = PyStr s -> s <> ""%string ->
        trace (after (authenticate "ghost" (PyStr "Wrong123!")) world_pair) =
          trace world_pair ++ [EvPbkdf2 default_iterations;
                      EvCompareDigest (List.length (col_pw_hash r))]
        /\ (digest s (col_salt r) = col_pw_hash r ->
            result (authenticate "ghost" (PyStr "Wrong123!")) world_pair
            = Return (Some (User_of_row r)))
        /\ (digest s (col_salt r) <> col_pw_hash r ->
            result (authenticate "ghost" (PyStr "Wrong123!")) world_pair
            = Return None)).
Proof.
  apply (@C2_failed_logins world_pair table_pair "ghost" (PyStr "Wrong123!")).
  reflexivity.
Defined.

(** C2, the claim as stated, fails: in [world_pair] a login with a password
    that is wrong for "alice" or for "bob" (their digests differ under one
    salt, so it is wrong for one of them at least) returns [None] after one
    hashing and one comparison, while a login with the unknown username
    "ghost" returns [None] with no hashing and no comparison. *)
Lemma C2_paths_differ :
  authenticate "ghost" (PyStr "Wrong123!") world_pair = (Return None, world_pair)
  /\ trace world_pair = []
  /\ trace (after (authenticate "alice" (PyStr "Wrong123!")) world_pair)
     = [EvPbkdf2 200000; EvCompareDigest 32]
  /\ trace (after (authenticate "bob" (PyStr "Wrong123!")) world_pair)
     = [EvPbkdf2 200000; EvCompareDigest 32]
  /\ (result (authenticate "alice" (PyStr "Wrong123!")) world_pair = Return None
      \/ result (authenticate "bob" (PyStr "Wrong123!")) world_pair = Return None).
Proof.
  assert (Hdb : db world_pair = Some table_pair) by reflexivity.
  assert (A : find_row (strip "alice") table_pair = Some row_alice) by reflexivity.
  assert (B : find_row (strip "bob") table_pair = Some row_bob) by reflexivity.
  assert (G : find_row (strip "ghost") table_pair = None) by reflexivity.
  assert (NA : strip "alice" <> ""%string) by discriminate.
  assert (NB : strip "bob" <> ""%string) by discriminate.
  assert (NP : "Wrong123!"%string <> ""%string) by discriminate.
  pose proof (authenticate_known world_pair table_pair Hdb "alice" "Wrong123!"
                row_alice NA A NP) as EA.
  pose proof (authenticate_known world_pair table_pair Hdb "bob" "Wrong123!"
                row_bob NB B NP) as EB.
  pose proof (authenticate_unknown world_pair table_pair Hdb "ghost"
                (PyStr "Wrong123!") G) as EG.
  unfold result, after. rewrite EA, EB. cbn [fst snd trace].
  change (col_salt row_alice) with salt_0f.
  change (col_salt row_bob) with salt_0f.
  change (col_pw_hash row_alice) with hash_a.
  change (col_pw_hash row_bob) with hash_b.
  split; [exact EG|]. split; [reflexivity|].
  split; [reflexivity|]. split; [reflexivity|].
  destruct (tscmp (digest "Wrong123!" salt_0f) hash_a) eqn:T.
  - right. apply tscmp_eq in T. rewrite T.
    replace (tscmp hash_a hash_b) with false by (vm_compute; reflexivity).
    reflexivity.
  - left. reflexivity.
Qed.

(** One case of the policy: the hypotheses decide it. *)
Ltac policy_case :=
  intros;
  repeat match goal with H : _ /\ _ |- _ => destruct H end;
  first [ reflexivity | lia | congruence | discriminate
        | repeat split; first [assumption | reflexivity] ].

(** C3 (as amended).  [validate_password_rules] checks five rules in order
    and the first that fails gives the reason: at least 8 characters; a
    lowercase letter a..z; an uppercase letter A..Z; a decimal digit; a
    character that is not alphanumeric, not the underscore and not
    whitespace.  It returns [(True, "OK")] exactly when all five hold.
    "Valid123!" is accepted; "short1!", "alllowercase1!", "NoDigits!" and
    "NoSpecial123" are rejected for length, uppercase, digit and special
    character. *)
Theorem C3_policy_rules :
  (forall s : string,
     (String.length s < 8 ->
      validate_password_rules (PyStr s)
      = (false, "Password must be at least 8 characters."%string))
     /\ (8 <= String.length s -> ~ has lowercase_letter s ->
         validate_password_rules (PyStr s)
         = (false, "Password must contain at least one lowercase letter."%string))
     /\ (8 <= String.length s -> has lowercase_letter s ->
         ~ has uppercase_letter s ->
         validate_password_rules (PyStr s)
         = (false, "Password must contain at least one uppercase letter."%string))
     /\ (8 <= String.length s -> has lowercase_letter s ->
         has uppercase_letter s -> ~ has decimal_digit s ->
         validate_password_rules (PyStr s)
         = (false, "Password must contain at least one digit."%string))
     /\ (8 <= String.length s -> has lowercase_letter s ->
         has uppercase_letter s -> has decimal_digit s ->
         ~ has special_as_matched s ->
         validate_password_rules (PyStr s)
         = (false,
            "Password must contain at least one special character (e.g., !@#$%)."%string))
     /\ (meets_policy special_as_matched s ->
         validate_password_rules (PyStr s) = (true, "OK"%string))
     /\ (fst (validate_password_rules (PyStr s)) = true
         <-> meets_policy special_as_matched s))
  /\ validate_password_rules (PyStr "Valid123!") = (true, "OK"%string)
  /\ validate_password_rules (PyStr "short1!")
     = (false, "Password must be at least 8 characters."%string)
  /\ validate_password_rules (PyStr "alllowercase1!")
     = (false, "Password must contain at least one uppercase letter."%string)
  /\ validate_password_rules (PyStr "NoDigits!")
     = (false, "Password must contain at least one digit."%string)
  /\ validate_password_rules (PyStr "NoSpecial123")
     = (false,
        "Password must contain at least one special character (e.g., !@#$%)."%string).
Proof.
  split; [|repeat split].
  intros s. unfold meets_policy.
  rewrite <- has_lower, <- has_upper, <- has_digit, <- has_special.
  unfold validate_password_rules.
  destruct (String.length s <? 8) eqn:L;
    [apply Nat.ltb_lt in L | apply Nat.ltb_ge in L].
  { split; [reflexivity|]. do 4 (split; [intros; lia|]).
    split; [intros [H _]; lia|].
    split; [simpl; discriminate | intros [H _]; lia]. }
  destruct (re_search re_lower s), (re_search re_upper s),
    (re_search re_digit s), (re_search re_special s); cbn [negb fst];
    (split; [intros; lia|]);
    do 5 (split; [policy_case|]);
    (split; [policy_case | policy_case]).
Qed.

(** C3, the claim as stated, fails on the underscore: "Valid123_" meets the
    five rules as the specification words them (the underscore is neither
    alphanumeric nor whitespace), and is rejected for want of a special
    character. *)
Lemma C3_underscore_rejected :
  meets_policy special_as_specified "Valid123_"
  /\ validate_password_rules (PyStr "Valid123_")
     = (false,
        "Password must contain at least one special character (e.g., !@#$%)."%string).
Proof.
  split; [|reflexivity].
  unfold meets_policy, has, chars. simpl. split; [lia|].
  split; [exists "a"%char; split; [tauto | unfold lowercase_letter; simpl; lia]|].
  split; [exists "V"%char; split; [tauto | unfold uppercase_letter; simpl; lia]|].
  split; [exists "1"%char; split; [tauto | unfold decimal_digit; simpl; lia]|].
  exists "_"%char. split; [tauto|].
  unfold special_as_specified, alphanumeric, whitespace. split; discriminate.
Qed.

(** C4 (as amended).  When an account named [u] exists, [create_user] for
    [u] raises and the store is left as it was, with its one row for [u]:
    the error is the uniqueness error when the password gets as far as the
    [INSERT] (it passes the policy, or the policy is off and it is a
    non-empty [str]); a password the policy rejects raises the policy
    error instead, and with the policy off a password that is not a
    non-empty [str] raises the hasher's error. *)
Theorem C4_duplicate_username (w : world) (t : table) (u : string) (p : pyobj)
    (adm enforce : bool) (r : row) :
  db w = Some t -> wf_table t -> find_row (strip u) t = Some r ->
  (exists e,
     result (create_user u p adm enforce) w = Raise e
     /\ (policy_ok enforce p -> hashable p = true -> e = unique_failed)
     /\ (enforce = true -> fst (validate_password_rules p) = false ->
         e = ValueError (snd (validate_password_rules p)))
     /\ (enforce = false -> hashable p = false ->
         e = ValueError "Password must be a non-empty string."))
  /\ db (after (create_user u p adm enforce) w) = Some t
  /\ rows_of (strip u) t = [r].
Proof.
  intros Hdb W F.
  destruct (found_row_wf t (strip u) r W F) as [_ Hu].
  assert (O : create_user u p adm enforce w
              = (if enforce && negb (fst (validate_password_rules p))
                 then Raise (ValueError (snd (validate_password_rules p)))
                 else if hashable p then Raise unique_failed
                 else Raise (ValueError "Password must be a non-empty string."),
                 after (create_user u p adm enforce) w)
              /\ db (after (create_user u p adm enforce) w) = Some t).
  { destruct (create_user_refused w u p adm enforce) as (_ & Rp & Rh).
    unfold after.
    destruct enforce; cbn [andb].
    - destruct (fst (validate_password_rules p)) eqn:V; cbn [negb].
      + destruct (hashable_str p (valid_password_hashable p V)) as [s [E Hs]].
        subst p.
        rewrite (create_user_duplicate w t u s r adm true Hdb Hu Hs (fun _ => V) F).
        cbn [hashable snd db]. apply String.eqb_neq in Hs. rewrite Hs. auto.
      + rewrite (Rp Hu eq_refl eq_refl). auto.
    - destruct (hashable p) eqn:Hh.
      + destruct (hashable_str p Hh) as [s [E Hs]]. subst p.
        assert (V : policy_ok false (PyStr s)) by (intros X; discriminate X).
        rewrite (create_user_duplicate w t u s r adm false Hdb Hu Hs V F). auto.
      + destruct (Rh Hu eq_refl eq_refl) as [E1 E2]. unfold result, after in *.
        destruct (create_user u p adm false w) as [o w1]. cbn [fst snd] in *.
        subst o. rewrite E2. auto. }
  destruct O as [O D]. split; [|split; [exact D|]].
  - unfold result. rewrite O. cbn [fst]. unfold policy_ok.
    destruct enforce; cbn [andb].
    + destruct (fst (validate_password_rules p)) eqn:V; cbn [negb].
      * rewrite (valid_password_hashable p V).
        exists unique_failed. repeat split; auto; discriminate.
      * exists (ValueError (snd (validate_password_rules p))).
        repeat split; auto; try discriminate.
        intros P _. specialize (P eq_refl). discriminate P.
    + destruct (hashable p).
      * exists unique_failed. repeat split; auto; discriminate.
      * exists (ValueError "Password must be a non-empty string.").
        repeat split; auto; discriminate.
  - apply rows_of_unique; [apply W | exact F].
Qed.

Lemma C4_witness :
  (exists e,
     result (create_user "alice" (PyStr "Valid123!") false true) world_pair
     = Raise e
     /\ (policy_ok true (PyStr "Valid123!") -> hashable (PyStr "Valid123!") = true ->
         e = unique_failed)
     /\ (true = true -> fst (validate_password_rules (PyStr "Valid123!")) = false ->
         e = ValueError (snd (validate_password_rules (PyStr "Valid123!"))))
     /\ (true = false -> hashable (PyStr "Valid123!") = false ->
         e = ValueError "Password must be a non-empty string."))
  /\ db (after (create_user "alice" (PyStr "Valid123!") false true) world_pair)
     = Some table_pair
  /\ rows_of (strip "alice") table_pair = [row_alice].
Proof.
  apply (@C4_duplicate_username world_pair table_pair "alice"
           (PyStr "Valid123!") false true row_alice).
  - reflexivity.
  - split.
    + simpl. repeat constructor; simpl; intuition discriminate.
    + repeat constructor; simpl; auto; discriminate.
  - reflexivity.
Defined.

(** C4, the claim as stated, fails for a password the policy rejects: the
    second [create_user] for "alice" then raises the policy error, not a
    uniqueness error. *)
Lemma C4_policy_error_first :
  find_row (strip "alice") table_pair = Some row_alice
  /\ create_user "alice" (PyStr "short") false true world_pair
     = (Raise (ValueError "Password must be at least 8 characters."), world_pair).
Proof. split; reflexivity. Qed.

(** C5 (as amended).  For an existing account [u] and a policy-valid new
    password, [set_password] returns [True] and replaces salt and digest
    together, by the salt it draws and the digest of the new password under
    it; the other columns and the other rows stay.  Afterwards the new
    password authenticates, and an old password is refused exactly when its
    digest under the new salt differs from the new one's: it is still
    accepted when it is the new password itself.  The salt is whatever the
    generator yields; it is not compared with the one it replaces. *)
Theorem C5_password_reset (w : world) (t : table) (u s : string) (r : row) :
  db w = Some t -> wf_table t -> find_row (strip u) t = Some r ->
  fst (validate_password_rules (PyStr s)) = true ->
  set_password u (PyStr s) w = (Return true, updated w t (strip u) s)
  /\ find_row (strip u) (updated_table w t (strip u) s)
     = Some (set_credentials (next_salt w) (digest s (next_salt w)) r)
  /\ (forall v, v <> strip u ->
        find_row v (updated_table w t (strip u) s) = find_row v t)
  /\ result (authenticate u (PyStr s)) (updated w t (strip u) s)
     = Return (Some (User_of_row r))
  /\ (forall old : string,
        result (authenticate u (PyStr old)) (updated w t (strip u) s)
        = Return None
        <-> old = ""%string
            \/ digest old (next_salt w) <> digest s (next_salt w)).
Proof.
  intros Hdb W F Hv.
  destruct (found_row_wf t (strip u) r W F) as [_ Hu].
  assert (Hs : s <> ""%string).
  { apply valid_password_hashable in Hv. simpl in Hv.
    now apply negb_true_iff, String.eqb_neq in Hv. }
  assert (Hr : username_is (strip u) r = true).
  { apply find_row_username in F. now apply username_is_eq. }
  assert (F' : find_row (strip u) (updated_table w t (strip u) s)
               = Some (set_credentials (next_salt w) (digest s (next_salt w)) r)).
  { unfold find_row, updated_table. simpl. rewrite find_map_credentials.
    unfold find_row in F. rewrite F. simpl. now rewrite Hr. }
  assert (D : db (updated w t (strip u) s)
              = Some (updated_table w t (strip u) s)) by reflexivity.
  split; [|split; [|split; [|split]]].
  - rewrite (set_password_updates w t u s Hdb Hu Hv).
    now rewrite (found_rows_positive t (strip u) r F).
  - exact F'.
  - intros v Hne. unfold find_row, updated_table. simpl.
    rewrite find_map_credentials. unfold find_row.
    destruct (find (username_is v) (rows t)) as [x|] eqn:Fx; [|reflexivity].
    simpl. apply find_some in Fx. destruct Fx as [_ Fx].
    destruct (username_is (strip u) x) eqn:E; [|reflexivity].
    apply username_is_eq in E. apply username_is_eq in Fx. congruence.
  - unfold result. rewrite (authenticate_known _ _ D u s _ Hu F' Hs).
    cbn [fst col_salt col_pw_hash set_credentials].
    now rewrite tscmp_refl.
  - intros old. unfold result. split.
    + intros H. destruct (String.eqb_spec old ""); [now left | right].
      rewrite (authenticate_known _ _ D u old _ Hu F' n) in H.
      cbn [fst col_salt col_pw_hash set_credentials] in H.
      intros E. rewrite E, tscmp_refl in H. discriminate H.
    + intros [-> | N].
      * now rewrite (authenticate_unhashable _ _ D u (PyStr "") _ F' eq_refl).
      * destruct (String.eqb_spec old "") as [-> | n].
        -- now rewrite (authenticate_unhashable _ _ D u (PyStr "") _ F' eq_refl).
        -- rewrite (authenticate_known _ _ D u old _ Hu F' n).
           cbn [fst col_salt col_pw_hash set_credentials].
           destruct (tscmp _ _) eqn:T; [|reflexivity].
           apply tscmp_eq in T. exact (False_ind _ (N T)).
Qed.

Lemma C5_witness :
  set_password "alice" (PyStr "Valid123!") world_pair
  = (Return true, updated world_pair table_pair (strip "alice") "Valid123!")
  /\ find_row (strip "alice")
       (updated_table world_pair table_pair (strip "alice") "Valid123!")
     = Some (set_credentials (next_salt world_pair)
               (digest "Valid123!" (next_salt world_pair)) row_alice)
  /\ (forall v, v <> strip "alice" ->
        find_row v (updated_table world_pair table_pair (strip "alice") "Valid123!")
        = find_row v table_pair)
  /\ result (authenticate "alice" (PyStr "Valid123!"))
       (updated world_pair table_pair (strip "alice") "Valid123!")
     = Return (Some (User_of_row row_alice))
  /\ (forall old : string,
        result (authenticate "alice" (PyStr old))
          (updated world_pair table_pair (strip "alice") "Valid123!")
        = Return None
        <-> old = ""%string
            \/ digest old (next_salt world_pair)
               <> digest "Valid123!" (next_salt world_pair)).
Proof.
  apply (@C5_password_reset world_pair table_pair "alice" "Valid123!" row_alice).
  - reflexivity.
  - split.
    + simpl. repeat constructor; simpl; intuition discriminate.
    + repeat constructor; simpl; auto; discriminate.
  - reflexivity.
  - reflexivity.
Defined.

(** C5, the claim as stated, fails when the new password is the old one:
    "bob" was created with "Valid123!", which authenticates; after
    [set_password("bob", "Valid123!")] returns [True], the old password
    "Valid123!" still authenticates. *)
Lemma C5_same_password_still_accepted :
  create_user "bob" (PyStr "Valid123!") false true fresh_world
  = (Return tt, world_bob)
  /\ (exists usr,
        result (authenticate "bob" (PyStr "Valid123!")) world_bob
        = Return (Some usr))
  /\ result (set_password "bob" (PyStr "Valid123!")) world_bob = Return true
  /\ (exists usr,
        result (authenticate "bob" (PyStr "Valid123!"))
          (after (set_password "bob" (PyStr "Valid123!")) world_bob)
        = Return (Some usr)).
Proof.
  assert (C : create_user "bob" (PyStr "Valid123!") false true fresh_world
              = (Return tt, world_bob)).
  { apply create_user_inserts; try reflexivity; try discriminate.
    intros _. reflexivity. }
  set (r := mkRow 1 "bob" (next_salt fresh_world)
              (digest "Valid123!" (next_salt fresh_world)) 0
              "2024-01-01 00:00:00").
  set (t := mkTable [r] 1).
  assert (Hdb : db world_bob = Some t) by reflexivity.
  assert (F : find_row (strip "bob") t = Some r) by reflexivity.
  assert (Hu : strip "bob" <> ""%string) by discriminate.
  assert (Hs : "Valid123!"%string <> ""%string) by discriminate.
  assert (Hv : fst (validate_password_rules (PyStr "Valid123!")) = true)
    by reflexivity.
  split; [exact C|]. split; [|split].
  - exists (User_of_row r). unfold result.
    rewrite (authenticate_known _ _ Hdb "bob" "Valid123!" r Hu F Hs).
    unfold r. cbn [fst col_salt col_pw_hash].
    now rewrite tscmp_refl.
  - unfold result. rewrite (set_password_updates world_bob t "bob" "Valid123!" Hdb Hu Hv).
    reflexivity.
  - unfold result, after. rewrite (set_password_updates world_bob t "bob" "Valid123!" Hdb Hu Hv).
    set (r' := set_credentials (next_salt world_bob)
                 (digest "Valid123!" (next_salt world_bob)) r).
    exists (User_of_row r').
    assert (D : db (updated world_bob t (strip "bob") "Valid123!")
                = Some (updated_table world_bob t (strip "bob") "Valid123!"))
      by reflexivity.
    assert (F' : find_row (strip "bob")
                   (updated_table world_bob t (strip "bob") "Valid123!")
                 = Some r') by reflexivity.
    simpl snd.
    rewrite (authenticate_known _ _ D "bob" "Valid123!" r' Hu F' Hs).
    unfold r'. cbn [fst col_salt col_pw_hash set_credentials].
    now rewrite tscmp_refl.
Qed.

(** C7.  With the table present, [delete_user] never raises: it removes the
    rows named [u] (stripped) and returns whether there was one; when there
    is none it returns [False] and the store is as before; the rows of
    other usernames are kept as they are, in their order, and lookups of
    other usernames give what they gave. *)
Theorem C7_delete_user (w : world) (t : table) (u : string) :
  db w = Some t ->
  exists b t',
    result (delete_user u) w = Return b
    /\ db (after (delete_user u) w) = Some t'
    /\ (b = true <-> strip u <> ""%string /\ find_row (strip u) t <> None)
    /\ (b = false -> t' = t)
    /\ (b = true -> find_row (strip u) t' = None)
    /\ filter (fun r => negb (username_is (strip u) r)) (rows t')
       = filter (fun r => negb (username_is (strip u) r)) (rows t)
    /\ (forall v, v <> strip u -> find_row v t' = find_row v t).
Proof.
  intros Hdb. destruct (str_not (strip u)) eqn:Hu.
  - apply str_not_true in Hu. exists false, t. unfold result, after.
    rewrite (delete_user_blank w u Hu). simpl.
    repeat split; auto; try discriminate. intros [H _]. contradiction.
  - apply str_not_false in Hu.
    exists (0 <? List.length (rows_of (strip u) t)), (deleted_table t (strip u)).
    unfold result, after. rewrite (delete_user_deletes w t u Hdb Hu). simpl.
    split; [reflexivity|]. split; [reflexivity|].
    destruct (rows_of (strip u) t) as [|x l] eqn:E; simpl.
    + assert (N : find_row (strip u) t = None) by now apply find_row_none.
      split; [split; [discriminate | intros [_ H]; contradiction]|].
      split.
      { intros _. unfold deleted_table. rewrite (filter_none_id (strip u) (rows t) E).
        now destruct t. }
      split; [discriminate|]. split.
      { apply filter_others_again. }
      intros v Hv. unfold find_row. simpl. now apply find_filter_other.
    + assert (N : find_row (strip u) t <> None).
      { intros N. apply find_row_none in N. congruence. }
      split; [tauto|]. split; [discriminate|]. split.
      { intros _. apply find_filter_self. }
      split.
      { apply filter_others_again. }
      intros v Hv. unfold find_row. simpl. now apply find_filter_other.
Qed.

Lemma C7_witness :
  exists b t',
    result (delete_user "ghost") world_pair = Return b
    /\ db (after (delete_user "ghost") world_pair) = Some t'
    /\ (b = true <-> strip "ghost" <> ""%string
                     /\ find_row (strip "ghost") table_pair <> None)
    /\ (b = false -> t' = table_pair)
    /\ (b = true -> find_row (strip "ghost") t' = None)
    /\ filter (fun r => negb (username_is (strip "ghost") r)) (rows t')
       = filter (fun r => negb (username_is (strip "ghost") r)) (rows table_pair)
    /\ (forall v, v <> strip "ghost" -> find_row v t' = find_row v table_pair).
Proof.
  apply (@C7_delete_user world_pair table_pair "ghost"). reflexivity.
Defined.

(** C9.  [authenticate] returns [None], raising nothing and changing
    nothing, for a username that is empty or only whitespace (whatever the
    database holds, even without a table), and for an existing account when
    the password is the empty string or is not a [str]: the hasher's
    [ValueError] is caught. *)
Theorem C9_degenerate_input (w : world) (u : string) (p : pyobj) :
  (strip u = ""%string -> authenticate u p w = (Return None, w))
  /\ (forall t r,
        db w = Some t -> find_row (strip u) t = Some r ->
        p = PyStr "" \/ (forall s, p <> PyStr s) ->
        _hash_password p (col_salt r) default_iterations w
        = (Raise (ValueError "Password must be a non-empty string."), w)
        /\ authenticate u p w = (Return None, w)).
Proof.
  split.
  - apply authenticate_blank.
  - intros t r Hdb F Hp.
    assert (Hh : hashable p = false).
    { destruct Hp as [-> | N]; [reflexivity|].
      destruct p as [| | | |s]; try reflexivity. now elim (N s). }
    split.
    + now apply hash_password_rejects.
    + now apply authenticate_unhashable with (t := t) (r := r).
Qed.

(** C10 (as amended).  [set_password] strips the username first: for a
    blank one it returns [False] at once, whatever the password.
    Otherwise it checks the policy before it looks for the account: for a
    username without a row, a password the policy rejects raises the policy
    error, and a policy-valid one returns [False] and leaves the table as it
    was. *)
Theorem C10_policy_before_lookup (w : world) (t : table) (u : string)
    (p : pyobj) :
  db w = Some t -> find_row (strip u) t = None ->
  (strip u = ""%string -> set_password u p w = (Return false, w))
  /\ (strip u <> ""%string -> fst (validate_password_rules p) = false ->
      set_password u p w
      = (Raise (ValueError (snd (validate_password_rules p))), w))
  /\ (strip u <> ""%string -> fst (validate_password_rules p) = true ->
      result (set_password u p) w = Return false
      /\ db (after (set_password u p) w) = Some t).
Proof.
  intros Hdb F. split; [|split].
  - apply set_password_blank.
  - apply set_password_policy.
  - intros Hu Hv.
    destruct (hashable_str p (valid_password_hashable p Hv)) as [s [E Hs]]. subst p.
    unfold result, after. rewrite (set_password_updates w t u s Hdb Hu Hv). simpl.
    apply find_row_none in F. unfold updated_table. rewrite F. simpl.
    split; [reflexivity|]. f_equal. destruct t as [l q]. simpl. f_equal.
    unfold rows_of in F. simpl in F. clear - F.
    induction l as [|x l IH]; simpl in *; [reflexivity|].
    destruct (username_is (strip u) x); [discriminate|]. now rewrite IH.
Qed.

Lemma C10_witness :
  (strip "ghost" = ""%string ->
   set_password "ghost" (PyStr "short") world_pair = (Return false, world_pair))
  /\ (strip "ghost" <> ""%string ->
      fst (validate_password_rules (PyStr "short")) = false ->
      set_password "ghost" (PyStr "short") world_pair
      = (Raise (ValueError (snd (validate_password_rules (PyStr "short")))),
         world_pair))
  /\ (strip "ghost" <> ""%string ->
      fst (validate_password_rules (PyStr "short")) = true ->
      result (set_password "ghost" (PyStr "short")) world_pair = Return false
      /\ db (after (set_password "ghost" (PyStr "short")) world_pair)
         = Some table_pair).
Proof.
  apply (@C10_policy_before_lookup world_pair table_pair "ghost" (PyStr "short"));
    reflexivity.
Defined.

(** C10, the claim as stated, fails for a blank username: it has no row,
    the password violates the policy, and [set_password] returns [False]
    instead of raising the policy error. *)
Lemma C10_blank_username_returns_false :
  find_row (strip "  ") table_pair = None
  /\ fst (validate_password_rules (PyStr "short")) = false
  /\ set_password "  " (PyStr "short") world_pair = (Return false, world_pair).
Proof. repeat split. Qed.

(** C8.  [list_users] returns the (username, is_admin) pairs of the
    accounts, each once, ordered: every administrator stands before every
    account that is none, and within each group usernames ascend (compared
    character by character, by code).  The list is the administrators
    followed by the others. *)
Theorem C8_list_users_order (w : world) (t : table) :
  db w = Some t -> wf_table t ->
  exists l,
    list_users w = (Return l, w)
    /\ Permutation l (map listing (rows t))
    /\ StronglySorted listed_before l
    /\ exists admins others,
         l = admins ++ others
         /\ Forall (fun x => snd x = true) admins
         /\ Forall (fun x => snd x = false) others.
Proof.
  intros Hdb [_ W]. exists (map listing (order_by (rows t))).
  assert (S : StronglySorted listed_before (map listing (order_by (rows t)))).
  { apply sorted_listing; [|apply order_by_sorted].
    rewrite Forall_forall in *. intros r Hr. apply W.
    now apply (Permutation_in r (order_by_perm (rows t))). }
  split; [now apply list_users_run|]. split; [|split; [exact S|]].
  - apply Permutation_map, order_by_perm.
  - now apply sorted_admins_first.
Qed.

Lemma C8_witness :
  exists l,
    list_users world_pair = (Return l, world_pair)
    /\ Permutation l (map listing (rows table_pair))
    /\ StronglySorted listed_before l
    /\ exists admins others,
         l = admins ++ others
         /\ Forall (fun x => snd x = true) admins
         /\ Forall (fun x => snd x = false) others.
Proof.
  apply (@C8_list_users_order world_pair table_pair).
  - reflexivity.
  - split.
    + simpl. repeat constructor; simpl; intuition discriminate.
    + repeat constructor; simpl; auto; discriminate.
Defined.




(* ================================================================== *)
(** * Further properties of [auth.py] *)

(** X1.  [create_user] is all or nothing: either it returns, having appended
    exactly one row (the stripped username, the salt it drew, the digest of
    the password under that salt, the flag, the next rowid) after the rows
    the table held, or it raises and the database is as it was. *)
Theorem create_user_all_or_nothing (w : world) (u : string) (p : pyobj)
    (adm enforce : bool) :
  (exists t s,
     db w = Some t /\ p = PyStr s /\ strip u <> ""%string
     /\ find_row (strip u) t = None
     /\ result (create_user u p adm enforce) w = Return tt
     /\ db (after (create_user u p adm enforce) w)
        = Some (mkTable (rows t ++ [new_row w t (strip u) s adm])
                  (next_rowid t)))
  \/ (exists e,
        result (create_user u p adm enforce) w = Raise e
        /\ db (after (create_user u p adm enforce) w) = db w).
Proof.
  destruct (db w) as [t|] eqn:Hdb.
  - unfold result, after.
    rewrite (create_user_outcome w t u p adm enforce Hdb).
    destruct (str_not (strip u)) eqn:Hu;
      [right; eexists; split; [reflexivity | exact Hdb]|].
    apply str_not_false in Hu.
    destruct (enforce && negb (fst (validate_password_rules p)));
      [right; eexists; split; [reflexivity | exact Hdb]|].
    destruct (hashable p) eqn:Hh; cbn [negb];
      [|right; eexists; split; [reflexivity | exact Hdb]].
    destruct (hashable_str p Hh) as [s [E _]]. subst p.
    destruct (find_row (strip u) t) eqn:F.
    + right. eexists. split; reflexivity.
    + left. exists t, s.
      split; [reflexivity|]. split; [reflexivity|]. split; [exact Hu|].
      split; [exact F|]. split; reflexivity.
  - right. destruct (create_user_no_table w u p adm enforce Hdb) as (e & R & D).
    exists e. now rewrite D.
Qed.

(** X2.  The operations that write keep the table well formed: usernames stay
    unique and non-empty, [is_admin] stays 0 or 1, rowids stay distinct and
    below the AUTOINCREMENT counter, and the counter never decreases. *)
Theorem writes_keep_table_well_formed (w : world) (t : table) :
  db w = Some t -> wf_table t -> ids_ok t ->
  (forall u p adm enforce,
     exists t', db (after (create_user u p adm enforce) w) = Some t'
                /\ wf_table t' /\ ids_ok t' /\ (seq t <= seq t')%Z)
  /\ (forall u,
        exists t', db (after (delete_user u) w) = Some t'
                   /\ wf_table t' /\ ids_ok t' /\ seq t' = seq t)
  /\ (forall u p,
        exists t', db (after (set_password u p) w) = Some t'
                   /\ wf_table t' /\ ids_ok t' /\ seq t' = seq t).
Proof.
  intros Hdb W I. split; [|split].
  - intros u p adm enforce.
    destruct (create_user_all_or_nothing w u p adm enforce)
      as [(t0 & s & D0 & -> & Hu & F & _ & D) | (e & _ & D)].
    + assert (t0 = t) by congruence. subst t0.
      eexists. split; [exact D|]. destruct (next_rowid_fresh t) as [Hq _].
      split; [|split; [now apply ids_ok_created | simpl; lia]].
      now apply wf_table_created.
    + exists t. rewrite D. repeat split; auto; try apply W; try apply I. lia.
  - intros u. unfold after. destruct (str_not (strip u)) eqn:Hu.
    + apply str_not_true in Hu. rewrite (delete_user_blank w u Hu).
      exists t. auto.
    + apply str_not_false in Hu. rewrite (delete_user_deletes w t u Hdb Hu).
      exists (deleted_table t (strip u)). split; [reflexivity|].
      split; [now apply wf_table_deleted|].
      split; [now apply ids_ok_deleted | reflexivity].
  - intros u p. unfold after. destruct (str_not (strip u)) eqn:Hu.
    + apply str_not_true in Hu. rewrite (set_password_blank w u p Hu).
      exists t. auto.
    + apply str_not_false in Hu.
      destruct (fst (validate_password_rules p)) eqn:V.
      * destruct (hashable_str p (valid_password_hashable p V)) as [s [E _]].
        subst p. rewrite (set_password_updates w t u s Hdb Hu V).
        exists (updated_table w t (strip u) s). split; [reflexivity|].
        split; [now apply wf_table_updated|].
        split; [now apply ids_ok_updated | reflexivity].
      * rewrite (set_password_policy w u p Hu V). exists t. auto.
Qed.

Lemma wf_table_pair : wf_table table_pair.
Proof.
  split.
  - simpl. repeat constructor; simpl; intuition discriminate.
  - repeat constructor; simpl; auto; discriminate.
Qed.

Lemma ids_ok_pair : ids_ok table_pair.
Proof.
  split.
  - simpl. repeat constructor; simpl; intuition discriminate.
  - repeat constructor; simpl; lia.
Qed.

Lemma writes_keep_table_well_formed_witness :
  (forall u p adm enforce,
     exists t', db (after (create_user u p adm enforce) world_pair) = Some t'
                /\ wf_table t' /\ ids_ok t' /\ (seq table_pair <= seq t')%Z)
  /\ (forall u,
        exists t', db (after (delete_user u) world_pair) = Some t'
                   /\ wf_table t' /\ ids_ok t' /\ seq t' = seq table_pair)
  /\ (forall u p,
        exists t', db (after (set_password u p) world_pair) = Some t'
                   /\ wf_table t' /\ ids_ok t' /\ seq t' = seq table_pair).
Proof.
  apply (writes_keep_table_well_formed world_pair table_pair).
  - reflexivity.
  - exact wf_table_pair.
  - exact ids_ok_pair.
Defined.

(** X3.  A username is read stripped: every operation does for [u] what it does
    for [u.strip()], so surrounding whitespace never names another
    account. *)
Theorem username_is_read_stripped (u : string) (p : pyobj)
    (adm enforce : bool) (w : world) :
  authenticate (strip u) p w = authenticate u p w
  /\ get_user_by_username (strip u) w = get_user_by_username u w
  /\ create_user (strip u) p adm enforce w = create_user u p adm enforce w
  /\ delete_user (strip u) w = delete_user u w
  /\ set_password (strip u) p w = set_password u p w.
Proof.
  unfold authenticate, get_user_by_username, create_user, delete_user,
    set_password.
  rewrite !str_or_empty, strip_again. repeat split.
Qed.

(** X4.  The identity [authenticate] returns is the one [get_user_by_username]
    finds for the same username. *)
Theorem authenticate_agrees_with_lookup (w : world) (u : string) (p : pyobj)
    (usr : User) :
  result (authenticate u p) w = Return (Some usr) ->
  get_user_by_username u w = (Return (Some usr), w).
Proof.
  unfold result. intros H. destruct (str_not (strip u)) eqn:Hu.
  - apply str_not_true in Hu. rewrite (authenticate_blank u p w Hu) in H.
    discriminate H.
  - apply str_not_false in Hu. destruct (db w) as [t|] eqn:Hdb.
    + rewrite (get_user_by_username_run w t u Hdb Hu).
      destruct (find_row (strip u) t) as [r|] eqn:F.
      * destruct (hashable p) eqn:Hh.
        -- destruct (hashable_str p Hh) as [s [E Hs]]. subst p.
           rewrite (authenticate_known w t Hdb u s r Hu F Hs) in H.
           cbn [fst] in H. destruct (tscmp _ _); [|discriminate H].
           injection H as <-. reflexivity.
        -- rewrite (authenticate_unhashable w t Hdb u p r F Hh) in H.
           discriminate H.
      * rewrite (authenticate_unknown w t Hdb u p F) in H. discriminate H.
    + rewrite (authenticate_no_table w u p Hdb Hu) in H. discriminate H.
Qed.

Lemma authenticate_agrees_with_lookup_witness :
  get_user_by_username "bob" world_bob
  = (Return (Some (mkUser 1 "bob" false)), world_bob).
Proof.
  apply (authenticate_agrees_with_lookup world_bob "bob" (PyStr "Valid123!")).
  unfold result.
  rewrite (authenticate_known world_bob
             (mkTable [new_row fresh_world empty_table "bob" "Valid123!" false] 1)
             eq_refl "bob" "Valid123!"
             (new_row fresh_world empty_table "bob" "Valid123!" false)).
  - cbn [fst new_row col_salt col_pw_hash]. rewrite tscmp_refl. reflexivity.
  - discriminate.
  - reflexivity.
  - discriminate.
Defined.

(** X5.  A deleted account is gone: whatever the password, [authenticate] and
    [get_user_by_username] answer [None] for its username, and the
    username can be taken again by [create_user]. *)
Theorem deleted_account_is_gone (w : world) (t : table) (u : string) :
  db w = Some t ->
  (forall p,
     authenticate u p (after (delete_user u) w)
     = (Return None, after (delete_user u) w))
  /\ get_user_by_username u (after (delete_user u) w)
     = (Return None, after (delete_user u) w)
  /\ (forall s adm,
        strip u <> ""%string ->
        fst (validate_password_rules (PyStr s)) = true ->
        result (create_user u (PyStr s) adm true) (after (delete_user u) w)
        = Return tt).
Proof.
  intros Hdb. unfold after, result. destruct (str_not (strip u)) eqn:Hu.
  - apply str_not_true in Hu. rewrite (delete_user_blank w u Hu). cbn [snd].
    split; [|split].
    + intros p. apply (authenticate_blank u p w Hu).
    + apply (get_user_by_username_blank w u Hu).
    + intros s adm N. contradiction.
  - apply str_not_false in Hu. rewrite (delete_user_deletes w t u Hdb Hu).
    cbn [snd].
    assert (D : db (with_db w (Some (deleted_table t (strip u))))
                = Some (deleted_table t (strip u))) by reflexivity.
    assert (F : find_row (strip u) (deleted_table t (strip u)) = None)
      by apply find_filter_self.
    split; [|split].
    + intros p. apply (authenticate_unknown _ _ D u p F).
    + rewrite (get_user_by_username_run _ _ u D Hu), F. reflexivity.
    + intros s adm _ V.
      assert (Hs : s <> ""%string).
      { apply valid_password_hashable in V. simpl in V.
        now apply negb_true_iff, String.eqb_neq in V. }
      rewrite (create_user_inserts _ _ u s adm true D Hu Hs (fun _ => V) F).
      reflexivity.
Qed.

Lemma deleted_account_is_gone_witness :
  (forall p,
     authenticate "alice" p (after (delete_user "alice") world_pair)
     = (Return None, after (delete_user "alice") world_pair))
  /\ get_user_by_username "alice" (after (delete_user "alice") world_pair)
     = (Return None, after (delete_user "alice") world_pair)
  /\ (forall s adm,
        strip "alice" <> ""%string ->
        fst (validate_password_rules (PyStr s)) = true ->
        result (create_user "alice" (PyStr s) adm true)
          (after (delete_user "alice") world_pair)
        = Return tt).
Proof.
  apply (deleted_account_is_gone world_pair table_pair "alice"). reflexivity.
Defined.

(** X6.  Writing for one username leaves the others alone: after [create_user],
    [delete_user] or [set_password] for [u], whatever they did,
    [authenticate] and [get_user_by_username] answer for any other
    username what they answered before. *)
Theorem other_accounts_untouched (w : world) (t : table) (u v : string)
    (q : pyobj) :
  db w = Some t -> strip v <> strip u ->
  (forall p adm enforce,
     result (authenticate v q) (after (create_user u p adm enforce) w)
     = result (authenticate v q) w
     /\ result (get_user_by_username v) (after (create_user u p adm enforce) w)
        = result (get_user_by_username v) w)
  /\ (result (authenticate v q) (after (delete_user u) w)
      = result (authenticate v q) w
      /\ result (get_user_by_username v) (after (delete_user u) w)
         = result (get_user_by_username v) w)
  /\ (forall p,
        result (authenticate v q) (after (set_password u p) w)
        = result (authenticate v q) w
        /\ result (get_user_by_username v) (after (set_password u p) w)
           = result (get_user_by_username v) w).
Proof.
  intros Hdb Hv. destruct (writes_frame w t u Hdb) as (C & D & S).
  split; [|split].
  - intros p adm enforce. destruct (C p adm enforce) as (t' & Dt & F). split.
    + apply (authenticate_by_row _ w t' t v q Dt Hdb (F _ Hv)).
    + apply (get_user_by_row _ w t' t v Dt Hdb (F _ Hv)).
  - destruct D as (t' & Dt & F). split.
    + apply (authenticate_by_row _ w t' t v q Dt Hdb (F _ Hv)).
    + apply (get_user_by_row _ w t' t v Dt Hdb (F _ Hv)).
  - intros p. destruct (S p) as (t' & Dt & F). split.
    + apply (authenticate_by_row _ w t' t v q Dt Hdb (F _ Hv)).
    + apply (get_user_by_row _ w t' t v Dt Hdb (F _ Hv)).
Qed.

Lemma other_accounts_untouched_witness :
  (forall p adm enforce,
     result (authenticate "bob" (PyStr "Valid123!"))
       (after (create_user "alice" p adm enforce) world_pair)
     = result (authenticate "bob" (PyStr "Valid123!")) world_pair
     /\ result (get_user_by_username "bob")
          (after (create_user "alice" p adm enforce) world_pair)
        = result (get_user_by_username "bob") world_pair)
  /\ (result (authenticate "bob" (PyStr "Valid123!"))
        (after (delete_user "alice") world_pair)
      = result (authenticate "bob" (PyStr "Valid123!")) world_pair
      /\ result (get_user_by_username "bob")
           (after (delete_user "alice") world_pair)
         = result (get_user_by_username "bob") world_pair)
  /\ (forall p,
        result (authenticate "bob" (PyStr "Valid123!"))
          (after (set_password "alice" p) world_pair)
        = result (authenticate "bob" (PyStr "Valid123!")) world_pair
        /\ result (get_user_by_username "bob")
             (after (set_password "alice" p) world_pair)
           = result (get_user_by_username "bob") world_pair).
Proof.
  apply (other_accounts_untouched world_pair table_pair "alice" "bob"
           (PyStr "Valid123!")).
  - reflexivity.
  - discriminate.
Defined.

(** X7.  Rowids are never reused: after any [delete_user], an account that
    [create_user] adds gets the rowid one above the AUTOINCREMENT counter,
    which is greater than the rowid of every row the table held before the
    deletion, the deleted one included. *)
Theorem rowids_never_reused (w : world) (t : table) (u v : string)
    (p : pyobj) (adm enforce : bool) :
  db w = Some t -> ids_ok t ->
  result (create_user v p adm enforce) (after (delete_user u) w) = Return tt ->
  exists usr,
    result (get_user_by_username v)
      (after (create_user v p adm enforce) (after (delete_user u) w))
    = Return (Some usr)
    /\ id usr = (seq t + 1)%Z
    /\ Forall (fun r => (col_id r < id usr)%Z) (rows t).
Proof.
  intros Hdb I H.
  destruct (delete_user_keeps_ids w t u Hdb I) as (t1 & D1 & I1 & Q1).
  unfold result in H.
  destruct (create_user v p adm enforce (after (delete_user u) w))
    as [o w2] eqn:C. cbn [fst] in H. subst o.
  destruct (create_user_returned _ _ _ _ _ _ C)
    as (t1' & s & D1' & Hv & -> & Hs & _ & F & ->).
  assert (t1' = t1) by congruence. subst t1'.
  exists (User_of_row (new_row (after (delete_user u) w) t1 (strip v) s adm)).
  unfold after at 1. rewrite C. cbn [snd]. unfold result.
  rewrite (get_user_by_username_run _ _ v
             (created_new_row (after (delete_user u) w) t1 (strip v) s adm) Hv).
  assert (F' : find_row (strip v)
                 (mkTable (rows t1 ++ [new_row (after (delete_user u) w) t1
                                         (strip v) s adm]) (next_rowid t1))
               = Some (new_row (after (delete_user u) w) t1 (strip v) s adm)).
  { apply find_row_app_fresh; [exact F | apply username_is_refl]. }
  rewrite F'. cbn [fst option_map User_of_row id new_row col_id].
  rewrite (next_rowid_counter t1 I1), Q1.
  split; [reflexivity|]. split; [reflexivity|].
  destruct I as [_ B]. eapply Forall_impl; [|exact B]. simpl. intros; lia.
Qed.

Lemma rowids_never_reused_witness :
  exists usr,
    result (get_user_by_username "carol")
      (after (create_user "carol" (PyStr "Valid123!") false true)
         (after (delete_user "bob") world_pair))
    = Return (Some usr)
    /\ id usr = (seq table_pair + 1)%Z
    /\ Forall (fun r => (col_id r < id usr)%Z) (rows table_pair).
Proof.
  apply (rowids_never_reused world_pair table_pair "bob" "carol"
           (PyStr "Valid123!") false true).
  - reflexivity.
  - exact ids_ok_pair.
  - unfold result.
    rewrite (create_user_inserts (after (delete_user "bob") world_pair)
               (mkTable [row_alice] 2) "carol" "Valid123!" false true).
    + reflexivity.
    + reflexivity.
    + discriminate.
    + discriminate.
    + intros _. reflexivity.
    + reflexivity.
Defined.

(** X8.  The listing does not depend on the order of the rows in the table: two
    tables that hold the same rows give the same [list_users]. *)
Theorem list_users_ignores_row_order (w1 w2 : world) (t1 t2 : table) :
  db w1 = Some t1 -> db w2 = Some t2 -> wf_table t1 ->
  Permutation (rows t1) (rows t2) ->
  result list_users w1 = result list_users w2.
Proof.
  intros D1 D2 [N _] P. unfold result.
  rewrite (list_users_run w1 t1 D1), (list_users_run w2 t2 D2). cbn [fst].
  now rewrite (order_by_permutation (rows t1) (rows t2) N P).
Qed.

Lemma list_users_ignores_row_order_witness :
  result list_users world_pair
  = result list_users
      (mkWorld (Some (mkTable [row_bob; row_alice] 2)) example_entropy
         example_clock []).
Proof.
  apply (list_users_ignores_row_order world_pair _ table_pair
           (mkTable [row_bob; row_alice] 2)).
  - reflexivity.
  - reflexivity.
  - exact wf_table_pair.
  - apply perm_swap.
Defined.

(** X9.  After [init_db] with a path that names a file in a directory, on
    a table whose rowids leave room for the seeds (the engine refuses an
    [INSERT] beyond 2^63 - 1, which the embedding leaves out), every seed
    account that was absent can log in with its seed password, and is an
    administrator exactly when the seed says so (only "admin" is).  An
    account that existed under a seed's name is left as it was, so this
    holds for the absent ones only; and with a path that has no directory
    part [init_db] raises and creates no account. *)
Theorem seeds_can_log_in (db_path : string) (w : world) (u p : string)
    (adm : bool) :
  names_file db_path = true ->
  has_room (List.length seed_users) (table_or_empty (db w)) ->
  In (u, p, adm) seed_users ->
  absent (table_or_empty (db w)) u = true ->
  exists usr,
    result (authenticate u (PyStr p)) (after (init_db db_path) w)
    = Return (Some usr)
    /\ username usr = u /\ is_admin usr = adm.
Proof.
  intros N _ Hin A. apply absent_find in A.
  set (t := table_or_empty (db w)) in *.
  set (w0 := match db w with None => with_db w (Some empty_table) | Some _ => w end).
  assert (Hdb : db w0 = Some t).
  { unfold w0, t. destruct (db w) eqn:E; [exact E | reflexivity]. }
  assert (C : create_table_if_not_exists w = (Return tt, w0)).
  { unfold create_table_if_not_exists, w0. now destruct (db w). }
  assert (E : init_db db_path w = (Return tt, seeded seed_users w0)).
  { rewrite (init_db_named db_path w N). unfold bind. rewrite C.
    apply (for_each_seeded seed_users w0 t Hdb good_seed_users). }
  destruct (seeded_row seed_users good_seed_users seed_users_distinct
              w0 t (u, p, adm) Hdb Hin A) as (t1 & r & D & F & Hh & Ha).
  assert (G : good_seed (u, p, adm)).
  { pose proof good_seed_users as GS. rewrite Forall_forall in GS.
    now apply GS. }
  destruct G as (Gs & Gu & Gp). unfold seed_name in *. cbn [fst snd] in *.
  exists (User_of_row r). unfold after, result. rewrite E. cbn [snd].
  assert (Hu : strip u <> ""%string) by congruence.
  rewrite <- Gs in F.
  rewrite (authenticate_known _ t1 D u p r Hu F Gp). cbn [fst].
  rewrite Hh, tscmp_refl. split; [reflexivity|].
  apply find_row_username in F. destruct F as [_ F].
  split; [cbn; congruence|]. cbn. unfold bool_of_int. rewrite Ha.
  now destruct adm.
Qed.

Lemma seeds_can_log_in_witness :
  exists usr,
    result (authenticate "admin" (PyStr "Admin123!"))
      (after (init_db "data/users.db") blank_world)
    = Return (Some usr)
    /\ username usr = "admin"%string /\ is_admin usr = true.
Proof.
  apply (seeds_can_log_in "data/users.db" blank_world "admin" "Admin123!" true).
  - reflexivity.
  - unfold has_room. vm_compute. discriminate.
  - now left.
  - reflexivity.
Defined.

(** X10.  A password is not the only string that logs in: PBKDF2-HMAC pads a
    short key with zero bytes, so when a password whose UTF-8 form is
    shorter than 64 bytes authenticates, the same password followed by a
    NUL character authenticates too, as the same user. *)
Theorem trailing_nul_accepted (w : world) (u s : string) (usr : User) :
  List.length (encode_utf8 s) < 64 ->
  result (authenticate u (PyStr s)) w = Return (Some usr) ->
  result (authenticate u (PyStr (s ++ String "000"%char EmptyString))) w
  = Return (Some usr).
Proof.
  unfold result. intros L H. destruct (str_not (strip u)) eqn:Hu.
  - apply str_not_true in Hu. rewrite (authenticate_blank u _ w Hu) in H.
    discriminate H.
  - apply str_not_false in Hu. destruct (db w) as [t|] eqn:Hdb.
    + destruct (find_row (strip u) t) as [r|] eqn:F.
      * destruct (String.eqb_spec s "") as [-> | Hs].
        -- rewrite (authenticate_unhashable w t Hdb u (PyStr "") r F eq_refl) in H.
           discriminate H.
        -- rewrite (authenticate_known w t Hdb u s r Hu F Hs) in H.
           assert (Hs' : (s ++ String "000"%char EmptyString)%string <> ""%string)
             by (destruct s; discriminate).
           rewrite (authenticate_known w t Hdb u _ r Hu F Hs').
           cbn [fst] in *. rewrite (digest_nul s (col_salt r) L). exact H.
      * rewrite (authenticate_unknown w t Hdb u _ F) in H. discriminate H.
    + rewrite (authenticate_no_table w u _ Hdb Hu) in H. discriminate H.
Qed.

Lemma trailing_nul_accepted_witness :
  result (authenticate "bob"
            (PyStr ("Valid123!" ++ String "000"%char EmptyString))) world_bob
  = Return (Some (mkUser 1 "bob" false)).
Proof.
  apply (trailing_nul_accepted world_bob "bob" "Valid123!").
  - vm_compute. lia.
  - unfold result.
    rewrite (authenticate_known world_bob
               (mkTable [new_row fresh_world empty_table "bob" "Valid123!" false] 1)
               eq_refl "bob" "Valid123!"
               (new_row fresh_world empty_table "bob" "Valid123!" false)).
    + cbn [fst new_row col_salt col_pw_hash]. rewrite tscmp_refl. reflexivity.
    + discriminate.
    + reflexivity.
    + discriminate.
Defined.

(* ================================================================== *)
(** * Properties of [login_ui.py] *)

(** X11.  [change_own_password] never raises.  A rejected or unconfirmed
    password leaves the world untouched.  Otherwise, with the table
    present, it prints "Password updated successfully." whatever
    [set_password] returned: also when no row bears the user's name any
    more (the account was deleted after the login), in which case the table
    is as it was.  Choice 4 of [admin_menu] prints "No such user." there. *)
Theorem change_own_password_reports (w : world) (user : User)
    (new_pw confirm : string) :
  (exists lines, result (change_own_password user new_pw confirm) w = Return lines)
  /\ (fst (validate_password_rules (PyStr new_pw)) = false ->
      change_own_password user new_pw confirm w
      = (Return [print2 "Password rejected:"
                   (snd (validate_password_rules (PyStr new_pw)))], w))
  /\ (fst (validate_password_rules (PyStr new_pw)) = true ->
      confirm <> new_pw ->
      change_own_password user new_pw confirm w
      = (Return ["Passwords do not match."%string], w))
  /\ (forall t,
        fst (validate_password_rules (PyStr new_pw)) = true ->
        confirm = new_pw -> db w = Some t ->
        result (change_own_password user new_pw confirm) w
        = Return ["Password updated successfully."%string]
        /\ (find_row (strip (username user)) t = None ->
            db (after (change_own_password user new_pw confirm) w) = Some t
            /\ result (admin_menu_reset (username user) new_pw) w
               = Return ["No such user."%string])).
Proof.
  assert (R : fst (validate_password_rules (PyStr new_pw)) = false ->
      change_own_password user new_pw confirm w
      = (Return [print2 "Password rejected:"
                   (snd (validate_password_rules (PyStr new_pw)))], w)).
  { intros V. unfold change_own_password.
    destruct (validate_password_rules (PyStr new_pw)) as [ok msg].
    cbn [fst snd] in *. subst ok. reflexivity. }
  assert (C : fst (validate_password_rules (PyStr new_pw)) = true ->
      confirm <> new_pw ->
      change_own_password user new_pw confirm w
      = (Return ["Passwords do not match."%string], w)).
  { intros V N. unfold change_own_password.
    destruct (validate_password_rules (PyStr new_pw)) as [ok msg].
    cbn [fst snd] in *. subst ok. cbn [negb].
    apply String.eqb_neq in N. rewrite N. reflexivity. }
  assert (S : fst (validate_password_rules (PyStr new_pw)) = true ->
      confirm = new_pw ->
      change_own_password user new_pw confirm w
      = try_Exception
          (set_password (username user) (PyStr new_pw) ;;
           ret ["Password updated successfully."%string])
          (fun e => ret [print2 "Could not update password:" (str_of_exn e)]) w).
  { intros V E. unfold change_own_password.
    destruct (validate_password_rules (PyStr new_pw)) as [ok msg].
    cbn [fst snd] in *. subst ok. cbn [negb].
    apply String.eqb_eq in E. rewrite E. reflexivity. }
  split; [|split; [exact R|split; [exact C|]]].
  - unfold result.
    destruct (fst (validate_password_rules (PyStr new_pw))) eqn:V.
    + destruct (String.eqb_spec confirm new_pw) as [E | N].
      * rewrite (S eq_refl E). unfold try_Exception, bind.
        destruct (set_password (username user) (PyStr new_pw) w) as [[b|e] w'];
          eexists; reflexivity.
      * rewrite (C eq_refl N). eexists; reflexivity.
    + rewrite (R eq_refl). eexists; reflexivity.
  - intros t V E Hdb.
    destruct (str_not (strip (username user))) eqn:Hu.
    + apply str_not_true in Hu. unfold result, after. rewrite (S V E).
      unfold admin_menu_reset, try_Exception, bind.
      rewrite (set_password_blank w (username user) (PyStr new_pw) Hu).
      split; [reflexivity|]. intros _. split; [exact Hdb | reflexivity].
    + apply str_not_false in Hu. unfold result, after. rewrite (S V E).
      unfold admin_menu_reset, try_Exception, bind.
      rewrite (set_password_updates w t (username user) new_pw Hdb Hu V).
      split; [reflexivity|]. intros F. cbn [fst snd ret].
      apply find_row_none in F. unfold rows_of in F.
      assert (F0 : rows_of (strip (username user)) t = []) by exact F.
      rewrite F0. cbn [List.length Nat.ltb Nat.leb].
      split; [|reflexivity]. cbn [db updated]. f_equal.
      unfold updated_table. destruct t as [l q]. cbn [rows seq] in *. f_equal.
      clear - F. induction l as [|x l IH]; simpl in *; [reflexivity|].
      destruct (username_is (strip (username user)) x); [discriminate F|].
      now rewrite IH.
Qed.

(** X12.  The guard of "Delete user" compares the name as typed, and
    [delete_user] strips it: the own username is refused and nothing is
    deleted, while a name that differs from it only by surrounding
    whitespace passes the guard and deletes the administrator's own
    account. *)
Theorem admin_menu_delete_guard (w : world) (t : table) (user : User)
    (uname : string) (r : row) :
  db w = Some t -> wf_table t -> find_row (username user) t = Some r ->
  admin_menu_delete user (username user) w
  = (Return ["You cannot delete your own account while logged in."%string], w)
  /\ (uname <> username user -> strip uname = username user ->
      result (admin_menu_delete user uname) w = Return ["Deleted."%string]
      /\ exists t',
           db (after (admin_menu_delete user uname) w) = Some t'
           /\ find_row (username user) t' = None).
Proof.
  intros Hdb W F. split.
  - unfold admin_menu_delete. now rewrite String.eqb_refl.
  - intros N E. unfold admin_menu_delete, result, after.
    apply String.eqb_neq in N. rewrite N. unfold bind.
    assert (Hu : strip uname <> ""%string).
    { rewrite E. apply (found_row_wf t (username user) r W F). }
    rewrite (delete_user_deletes w t uname Hdb Hu). cbn [fst snd ret].
    rewrite E. rewrite (found_rows_positive t (username user) r F).
    split; [reflexivity|].
    exists (deleted_table t (username user)). split; [reflexivity|].
    apply find_filter_self.
Qed.

Lemma admin_menu_delete_guard_witness :
  admin_menu_delete (mkUser 1 "alice" true) "alice" world_pair
  = (Return ["You cannot delete your own account while logged in."%string],
     world_pair)
  /\ (" alice"%string <> "alice"%string -> strip " alice" = "alice"%string ->
      result (admin_menu_delete (mkUser 1 "alice" true) " alice") world_pair
      = Return ["Deleted."%string]
      /\ exists t',
           db (after (admin_menu_delete (mkUser 1 "alice" true) " alice")
                 world_pair) = Some t'
           /\ find_row "alice" t' = None).
Proof.
  apply (admin_menu_delete_guard world_pair table_pair (mkUser 1 "alice" true)
           " alice" row_alice).
  - reflexivity.
  - exact wf_table_pair.
  - reflexivity.
Defined.

